(** * stocktools: the indicator screener of [pipeline/stock_indicators.py]

    A shallow embedding of [StockIndicators.calculate_macd],
    [StockIndicators.calculate_rsi] and [StockScreener.screen_by_indicators],
    and the properties of the crossover flags, of the most recent signal date,
    of the in-place table updates and of the append-only signal log.

    Conventions.
    - A pandas float is [float]: NaN, the two infinities, or a finite value
      carried as a rational (every finite double is one; the comparisons of
      the source only depend on the order).
    - A pandas Series is the list of its values by position; the tables here
      carry the default positional index, so label alignment is alignment by
      position.
    - A pandas DataFrame is a finite map from column names to columns; it
      lives in an object store and is passed by reference, as in Python.
    - TA-Lib ([talib.MACD], [talib.RSI]), [pd.to_datetime] and the values of
      the [config] module are not part of the repository: they are the
      variables of the sections below. *)

From Stdlib Require Import ZArith QArith Qround Lia String Ascii List.
From stdpp Require Import base option list gmap strings.

Local Open Scope string_scope.
Local Open Scope list_scope.
Local Open Scope nat_scope.

(** ** Values *)

Inductive float : Type :=
| NaN
| NegInf
| Fin (q : Q)
| PosInf.

(** [x <= y] on floats: false as soon as one side is NaN. *)
Definition float_le (x y : float) : bool :=
  match x, y with
  | NaN, _ | _, NaN => false
  | NegInf, _ => true
  | _, PosInf => true
  | Fin a, Fin b => Qle_bool a b
  | _, _ => false
  end.

(** [x < y] on floats: false as soon as one side is NaN. *)
Definition float_lt (x y : float) : bool :=
  match x, y with
  | NaN, _ | _, NaN => false
  | _, _ => negb (float_le y x)
  end.

Definition float_gt (x y : float) : bool := float_lt y x.
Definition float_ge (x y : float) : bool := float_le y x.

(** The order the comparisons decide, on defined values only. *)
Definition defined (x : float) : Prop := x <> NaN.

Inductive ext_le : float -> float -> Prop :=
| ext_le_fin a b : (a <= b)%Q -> ext_le (Fin a) (Fin b)
| ext_le_neg y : defined y -> ext_le NegInf y
| ext_le_pos x : defined x -> ext_le x PosInf.

Definition ext_lt (x y : float) : Prop := ext_le x y /\ ~ ext_le y x.

(** A pandas timestamp cell: a point in time (nanoseconds since the epoch)
    or [NaT]. *)
Inductive datetime : Type :=
| NaT
| Timestamp (ns : Z).

(** ** Series operations *)

(** [s.shift(1)]: every value moves one position down, the first position
    becomes NaN, the length is kept. *)
Definition shift1 (s : list float) : list float :=
  take (length s) (NaN :: s).

Definition series_le (a b : list float) : list bool := zip_with float_le a b.
Definition series_gt (a b : list float) : list bool := zip_with float_gt a b.
Definition series_and (a b : list bool) : list bool := zip_with andb a b.
Definition series_lt_scalar (a : list float) (c : Q) : list bool :=
  (fun x => float_lt x (Fin c)) <$> a.
Definition series_ge_scalar (a : list float) (c : Q) : list bool :=
  (fun x => float_ge x (Fin c)) <$> a.

(** Line 41:
    [(macd.shift(1) <= signal.shift(1)) & (macd > signal)]. *)
Definition cross_up (macd signal : list float) : list bool :=
  series_and (series_le (shift1 macd) (shift1 signal)) (series_gt macd signal).

(** Line 85:
    [(rsi < low_line) & (rsi.shift(1) >= low_line)]. *)
Definition rsi_buy (rsi : list float) (low_line : Q) : list bool :=
  series_and (series_lt_scalar rsi low_line)
             (series_ge_scalar (shift1 rsi) low_line).

(** ** Python strings *)

(** [s.endswith(suffix)]. *)
Definition endswith (s suffix : string) : bool :=
  (String.length suffix <=? String.length s) &&
  String.eqb
    (substring (String.length s - String.length suffix)
               (String.length suffix) s)
    suffix.

(** [os.path.splitext(name)[0]] for a name that ends with [".csv"] and holds
    no path separator: the name without its last four characters, unless
    only dots come before the last dot, in which case nothing is split off. *)
Definition splitext_root (file_name : string) : string :=
  let root := substring 0 (String.length file_name - 4) file_name in
  if forallb (Ascii.eqb ".") (list_ascii_of_string root)
  then file_name else root.

(** [s.replace(old, new)] for a non-empty [old]: the occurrences of [old]
    are replaced from left to right, without overlap.  [skip] counts the
    characters of a match that are still to be dropped. *)
Fixpoint replace_from (old new : string) (skip : nat) (s : string) : string :=
  match s with
  | EmptyString => EmptyString
  | String c s' =>
      match skip with
      | S k => replace_from old new k s'
      | O =>
          if String.prefix old s
          then new ++ replace_from old new (String.length old - 1) s'
          else String c (replace_from old new 0 s')
      end
  end.

Definition replace (old new s : string) : string := replace_from old new 0 s.

(** [s.isascii()]: every character of [s] is below 128. *)
Definition isascii (s : string) : bool :=
  forallb (fun c => nat_of_ascii c <? 128) (list_ascii_of_string s).

(** [s.upper()] for a string of ASCII characters ([s.isascii()]): the letters
    [a]..[z] move to [A]..[Z], every other character is kept.  Outside
    ASCII [str.upper] follows the Unicode case mapping, which is no part of
    this model: what is proved of [upper], and of [signal_type_of] below, is
    a statement on the code for the names that are ASCII text. *)
Definition upper_ascii (c : ascii) : ascii :=
  let n := nat_of_ascii c in
  if (97 <=? n) && (n <=? 122) then ascii_of_nat (n - 32) else c.

Fixpoint upper (s : string) : string :=
  match s with
  | EmptyString => EmptyString
  | String c s' => String (upper_ascii c) (upper s')
  end.

(** Line 138: [indicator.__name__.replace('calculate_', '').upper()]. *)
Definition signal_type_of (indicator_name : string) : string :=
  upper (replace "calculate_" EmptyString indicator_name).

(** ** Tables, exceptions and the object store *)

Inductive column : Type :=
| Floats (xs : list float)
| Bools (bs : list bool)
| Datetimes (ts : list datetime)
| Strings (ss : list string).

(** One cell of a table, and the scalars [Series.max()] returns. *)
Inductive scalar : Type :=
| SFloat (x : float)
| SBool (b : bool)
| STime (t : datetime)
| SStr (s : string).

Abbreviation DataFrame := (gmap string column).

Inductive exn : Type :=
| ValueError (msg : string)
| KeyError (key : string)
| Exception (msg : string).

Inductive result (A : Type) : Type :=
| Ok (a : A)
| Raise (e : exn).
Arguments Ok {A} a.
Arguments Raise {A} e.

Definition cells (c : column) : list scalar :=
  match c with
  | Floats xs => SFloat <$> xs
  | Bools bs => SBool <$> bs
  | Datetimes ts => STime <$> ts
  | Strings ss => SStr <$> ss
  end.

(** Selection of the rows of a boolean mask, by position. *)
Fixpoint select {A : Type} (mask : list bool) (xs : list A) : list A :=
  match mask, xs with
  | b :: mask', x :: xs' =>
      if b then x :: select mask' xs' else select mask' xs'
  | _, _ => []
  end.

Definition column_select (mask : list bool) (c : column) : column :=
  match c with
  | Floats xs => Floats (select mask xs)
  | Bools bs => Bools (select mask bs)
  | Datetimes ts => Datetimes (select mask ts)
  | Strings ss => Strings (select mask ss)
  end.

(** [Series.max()]: missing values (NaN, NaT) are skipped. *)
Definition float_max (x y : float) : float :=
  match x, y with
  | NaN, z | z, NaN => z
  | _, _ => if float_le x y then y else x
  end.

Definition datetime_max (x y : datetime) : datetime :=
  match x, y with
  | NaT, z | z, NaT => z
  | Timestamp a, Timestamp b => Timestamp (Z.max a b)
  end.

Definition string_max (x y : string) : string :=
  if String.leb x y then y else x.

Definition column_max (c : column) : scalar :=
  match c with
  | Floats xs => SFloat (foldr float_max NaN xs)
  | Bools [] => SFloat NaN
  | Bools (b :: bs) => SBool (foldr orb b bs)
  | Datetimes ts => STime (foldr datetime_max NaT ts)
  | Strings [] => SFloat NaN
  | Strings (s :: ss) => SStr (foldr string_max s ss)
  end.

(** [data[name]] used as a boolean mask in [data.loc[...]]: the column of
    Booleans that both indicator functions write.  A column of another type
    is taken by [.loc] as a list of row labels; the model has no row labels
    and gives [KeyError], which pandas raises for a label that is not in the
    index.  The statements on flagged bars take the column as Boolean. *)
Definition mask_of (df : DataFrame) (name : string) : result (list bool) :=
  match df !! name with
  | Some (Bools m) => Ok m
  | _ => Raise (KeyError name)
  end.

(** References to tables, and the store they point into. *)
Abbreviation ref := nat.
Abbreviation store := (list (gmap string column)).

(** Stateful, fallible code: the store is threaded through, and survives an
    exception (what was written before the [raise] stays written). *)
Definition M (A : Type) : Type := store -> store * result A.

Definition ret {A : Type} (a : A) : M A := fun h => (h, Ok a).

Definition raise {A : Type} (e : exn) : M A := fun h => (h, Raise e).

Definition bind {A B : Type} (m : M A) (k : A -> M B) : M B :=
  fun h =>
    match m h with
    | (h', Ok a) => k a h'
    | (h', Raise e) => (h', Raise e)
    end.

Notation "x <- m ;; k" := (bind m (fun x => k))
  (at level 20, m at level 99, k at level 200, only parsing).
Notation "m ;; k" := (bind m (fun _ => k))
  (at level 100, k at level 200, only parsing, right associativity).

Definition lift {A : Type} (r : result A) : M A := fun h => (h, r).

(** A new table object. *)
Definition alloc (df : DataFrame) : M ref :=
  fun h => (h ++ [df], Ok (length h)).

(** The table a reference points to. *)
Definition deref (data : ref) : M DataFrame :=
  fun h =>
    match h !! data with
    | Some df => (h, Ok df)
    | None => (h, Raise (Exception "no such object"))
    end.

(** [data[name]]. *)
Definition getcol (data : ref) (name : string) : M column :=
  df <- deref data ;;
  match df !! name with
  | Some c => ret c
  | None => raise (KeyError name)
  end.

(** [data[name] = c]: the table [data] points to is updated in place. *)
Definition setcol (data : ref) (name : string) (c : column) : M unit :=
  df <- deref data ;;
  fun h => (<[data := <[name := c]> df]> h, Ok tt).

(** [for x in xs: s = body(s, x)]. *)
Fixpoint for_each {A S : Type} (xs : list A) (body : S -> A -> M S) (s : S)
  : M S :=
  match xs with
  | [] => ret s
  | x :: xs' => s' <- body s x ;; for_each xs' body s'
  end.

(** ** StockIndicators *)

Record macd_config : Type :=
  { fast_length : Z; slow_length : Z; signal_length : Z }.

Record rsi_config : Type :=
  { period : Z; up_line : Q; low_line : Q }.

(** Lines 51 and 89:
    [data.loc[data['Buy Signal'], 'Datetime'].max()
       if not data.loc[data['Buy Signal']].empty else None].
    The condition is evaluated first; the ['Datetime'] column is only looked
    up when some row is flagged. *)
Definition last_signal_of (df : DataFrame) : result (option scalar) :=
  match mask_of df "Buy Signal" with
  | Raise e => Raise e
  | Ok mask =>
      if existsb id mask
      then match df !! "Datetime" with
           | None => Raise (KeyError "Datetime")
           | Some c => Ok (Some (column_max (column_select mask c)))
           end
      else Ok None
  end.

Definition last_signal (data : ref) : M (option scalar) :=
  df <- deref data ;;
  lift (last_signal_of df).

Section StockIndicators.

(** [talib.MACD(close, fastperiod, slowperiod, signalperiod)] and
    [talib.RSI(close, timeperiod)]; the series they return carry the index
    of [close]. *)
Variable talib_MACD :
  column -> Z -> Z -> Z -> result (list float * list float * list float).
Variable talib_RSI : column -> Z -> result (list float).

(** [config.MACD_CONFIG] and [config.RSI_CONFIG]. *)
Variable MACD_CONFIG : macd_config.
Variable RSI_CONFIG : rsi_config.

Definition calculate_macd (data : ref) : M (ref * option scalar) :=
  df <- deref data ;;
  if decide (df !! "Close" = None)
  then raise (ValueError "The input data must contain a 'Close' column.")
  else
    let fast_length := fast_length MACD_CONFIG in
    let slow_length := slow_length MACD_CONFIG in
    let signal_length := signal_length MACD_CONFIG in
    close <- getcol data "Close" ;;
    r <- lift (talib_MACD close fast_length slow_length signal_length) ;;
    let '(macd, signal, hist) := r in
    let cross_up := cross_up macd signal in
    setcol data "MACD" (Floats macd) ;;
    setcol data "Signal Line" (Floats signal) ;;
    setcol data "Histogram" (Floats hist) ;;
    setcol data "Buy Signal" (Bools cross_up) ;;
    last_cross_up <- last_signal data ;;
    ret (data, last_cross_up).

Definition calculate_rsi (data : ref) (res : string)
  : M (ref * option scalar) :=
  df <- deref data ;;
  if decide (df !! "Close" = None)
  then raise (ValueError "The input data must contain a 'Close' column.")
  else
    let period := period RSI_CONFIG in
    let up_line := up_line RSI_CONFIG in
    let low_line := low_line RSI_CONFIG in
    close <- getcol data "Close" ;;
    rsi <- lift (talib_RSI close period) ;;
    setcol data ("RSI_" ++ res) (Floats rsi) ;;
    setcol data "Buy Signal" (Bools (rsi_buy rsi low_line)) ;;
    last_buy_signal <- last_signal data ;;
    ret (data, last_buy_signal).

End StockIndicators.

(** ** StockScreener *)

(** One row of the signal log: the columns ['Datetime'], ['symbol'] and
    ['signal type']. *)
Record SignalRecord : Type :=
  { Datetime : scalar; symbol : string; signal_type : string }.

(** One line of the output file. *)
Inductive line : Type :=
| Header (names : list string)
| Row (r : SignalRecord).

(** What an indicator function returns: a tuple whose first item is a table,
    or a table. *)
Inductive indicator_result : Type :=
| RTuple (data : ref) (aux : option scalar)
| RFrame (data : ref).

(** An indicator function: its [__name__] and its behaviour when called. *)
Record indicator : Type :=
  { __name__ : string; call : ref -> M indicator_result }.

(** [data.loc[data[signal_col], ['Datetime']]] with the two columns
    [symbol] and [signal type] added (lines 136 to 138). *)
Definition signals_of (df : DataFrame) (stock_symbol : string)
    (ind : indicator) : result (list SignalRecord) :=
  match mask_of df "Buy Signal" with
  | Raise e => Raise e
  | Ok mask =>
      match df !! "Datetime" with
      | None => Raise (KeyError "Datetime")
      | Some c =>
          Ok ((fun t => {| Datetime := t;
                           symbol := stock_symbol;
                           signal_type := signal_type_of (__name__ ind) |})
                <$> select mask (cells c))
      end
  end.

(** The body of the loop over the indicators (lines 125 to 139); the loop
    carries the variable [data] and the list [all_signals]. *)
Definition apply_indicator (stock_symbol : string)
    (st : ref * list (list SignalRecord)) (ind : indicator)
  : M (ref * list (list SignalRecord)) :=
  let '(data, all_signals) := st in
  result <- call ind data ;;
  let data := match result with RTuple d _ => d | RFrame d => d end in
  df <- deref data ;;
  if decide (df !! "Buy Signal" = None)
  then ret (data, all_signals)
  else
    signals <- lift (signals_of df stock_symbol ind) ;;
    ret (data, all_signals ++ [signals]).

Section StockScreener.

(** [pd.to_datetime] on a column. *)
Variable to_datetime : column -> result column.

(** The body of the loop over the directory listing (lines 114 to 139).
    A file is given by its name and by the table [pd.read_csv] makes of
    it. *)
Definition screen_file (indicators : list indicator)
    (all_signals : list (list SignalRecord)) (file : string * DataFrame)
  : M (list (list SignalRecord)) :=
  let '(file_name, content) := file in
  if endswith file_name ".csv"
  then
    let stock_symbol := splitext_root file_name in
    data <- alloc content ;;
    df <- deref data ;;
    if decide (df !! "Datetime" = None)
    then raise (ValueError ("The file " ++ file_name
                              ++ " must contain a 'Datetime' column."))
    else
      c <- getcol data "Datetime" ;;
      c' <- lift (to_datetime c) ;;
      setcol data "Datetime" c' ;;
      st <- for_each indicators (apply_indicator stock_symbol)
              (data, all_signals) ;;
      ret (snd st)
  else ret all_signals.

(** Lines 111 to 139. *)
Definition collect_signals (stock_dir : list (string * DataFrame))
    (indicators : list indicator) : M (list (list SignalRecord)) :=
  for_each stock_dir (screen_file indicators) [].

(** Lines 146 to 152: [to_csv(output_file, mode='a', header=..., index=False,
    columns=['Datetime', 'symbol', 'signal type'])].  A file is kept as
    the list of the lines written to it, the header and one line for each
    record.  The text a file holds before the run is not looked at by the
    code; the model takes it as whole lines too, which is the case of a
    file written by this program. *)
Definition to_csv (combined_signals : list SignalRecord)
    (output_file : string) (header : bool)
    (fs : gmap string (list line)) : gmap string (list line) :=
  <[output_file :=
      default [] (fs !! output_file)
      ++ (if header then [Header ["Datetime"; "symbol"; "signal type"]]
          else [])
      ++ (Row <$> combined_signals)]> fs.

(** [os.path.exists(path)]. *)
Definition path_exists (fs : gmap string (list line)) (path : string)
  : bool :=
  bool_decide (is_Some (fs !! path)).

(** [StockScreener.screen_by_indicators]: the listing of [self.stock_dir]
    is [stock_dir]; [h] is the object store and [fs] the files the run
    may write. *)
Definition screen_by_indicators (stock_dir : list (string * DataFrame))
    (indicators : list indicator) (output_file : string)
    (h : store) (fs : gmap string (list line))
  : store * gmap string (list line) * result unit :=
  match collect_signals stock_dir indicators h with
  | (h', Raise e) => (h', fs, Raise e)
  | (h', Ok []) => (h', fs, Ok tt)
  | (h', Ok all_signals) =>
      let combined_signals := concat all_signals in
      (h',
       to_csv combined_signals output_file
         (negb (path_exists fs output_file)) fs,
       Ok tt)
  end.

End StockScreener.

(** The two indicator functions handed over by the main block
    (line 165); [calculate_rsi] is called with its default [res='1D']. *)
Definition indicator_macd talib_MACD MACD_CONFIG : indicator :=
  {| __name__ := "calculate_macd";
     call := fun data =>
       r <- calculate_macd talib_MACD MACD_CONFIG data ;;
       ret (RTuple (fst r) (snd r)) |}.

Definition indicator_rsi talib_RSI RSI_CONFIG : indicator :=
  {| __name__ := "calculate_rsi";
     call := fun data =>
       r <- calculate_rsi talib_RSI RSI_CONFIG data "1D" ;;
       ret (RTuple (fst r) (snd r)) |}.

(** ** Sample data

    Stand-ins for the external functions, and small tables, on which the
    statements below are evaluated.  The stand-in for [talib.MACD] takes the
    closing price as the line and the previous closing price as the signal
    line; the stand-in for [talib.RSI] returns the closing price; both accept
    every series of floats and every parameter.  The stand-in for
    [pd.to_datetime] reads numbers as nanoseconds since the epoch. *)
Module Sample.

Definition float_sub (x y : float) : float :=
  match x, y with
  | Fin a, Fin b => Fin (a - b)
  | _, _ => NaN
  end.

Definition talib_MACD (close : column) (fast slow signal : Z)
  : result (list float * list float * list float) :=
  match close with
  | Floats xs => Ok (xs, shift1 xs, zip_with float_sub xs (shift1 xs))
  | _ => Raise (Exception "input array type is not double")
  end.

Definition talib_RSI (close : column) (timeperiod : Z)
  : result (list float) :=
  match close with
  | Floats xs => Ok xs
  | _ => Raise (Exception "input array type is not double")
  end.

Definition to_datetime (c : column) : result column :=
  match c with
  | Datetimes ts => Ok (Datetimes ts)
  | Floats xs =>
      Ok (Datetimes
            ((fun x => match x with
                       | Fin q => Timestamp (Qfloor q)
                       | _ => NaT
                       end) <$> xs))
  | _ => Raise (ValueError "Unknown datetime string format")
  end.

Definition MACD_CONFIG : macd_config :=
  {| fast_length := 12; slow_length := 26; signal_length := 9 |}.

Definition RSI_CONFIG : rsi_config :=
  {| period := 14; up_line := 70; low_line := 30 |}.

Definition floats (zs : list Z) : list float :=
  (fun z => Fin (inject_Z z)) <$> zs.

Definition times (zs : list Z) : list datetime := Timestamp <$> zs.

(** Five closing prices and the timestamps of their bars. *)
Definition closes : list float := floats [40; 20; 35; 25; 45]%Z.
Definition stamps : list datetime := times [100; 200; 300; 400; 500]%Z.

(** The five bars as [pd.read_csv] returns them (the timestamps are still
    numbers). *)
Definition csv_good : DataFrame :=
  <["Close" := Floats closes]>
    (<["Datetime" := Floats (floats [100; 200; 300; 400; 500]%Z)]> ∅).

(** The same bars after [pd.to_datetime]. *)
Definition bars : DataFrame :=
  <["Close" := Floats closes]> (<["Datetime" := Datetimes stamps]> ∅).

(** Three bars of a rising price: no bar is flagged. *)
Definition rising : list float := floats [40; 41; 42]%Z.
Definition rising_bars : DataFrame :=
  <["Close" := Floats rising]>
    (<["Datetime" := Datetimes (times [100; 200; 300]%Z)]> ∅).

(** A file with a close column and no timestamp column. *)
Definition csv_no_datetime : DataFrame :=
  <["Close" := Floats closes]> ∅.

(** A table with a timestamp column and no close column. *)
Definition no_close : DataFrame :=
  <["Datetime" := Datetimes stamps]> ∅.

(** A table with both columns and no bar. *)
Definition no_bars : DataFrame :=
  <["Close" := Floats []]> (<["Datetime" := Datetimes []]> ∅).

Definition indicators : list indicator :=
  [indicator_macd talib_MACD MACD_CONFIG; indicator_rsi talib_RSI RSI_CONFIG].

(** A directory whose second file has no timestamp column. *)
Definition stock_dir_bad : list (string * DataFrame) :=
  [("AAA.csv", csv_good); ("BBB.csv", csv_no_datetime);
   ("CCC.csv", csv_good)].

(** The signals of the five bars, for a symbol: one batch per
    indicator. *)
Definition batches_good (stock_symbol : string)
  : list (list SignalRecord) :=
  [ [ {| Datetime := STime (Timestamp 300); symbol := stock_symbol;
         signal_type := "MACD" |};
      {| Datetime := STime (Timestamp 500); symbol := stock_symbol;
         signal_type := "MACD" |} ];
    [ {| Datetime := STime (Timestamp 200); symbol := stock_symbol;
         signal_type := "RSI" |};
      {| Datetime := STime (Timestamp 400); symbol := stock_symbol;
         signal_type := "RSI" |} ] ].

Definition signals_good (stock_symbol : string) : list SignalRecord :=
  concat (batches_good stock_symbol).

Definition header : line := Header ["Datetime"; "symbol"; "signal type"].

(** Parameters outside the ranges the specification allows. *)
Definition MACD_CONFIG_bad : macd_config :=
  {| fast_length := 26; slow_length := 12; signal_length := 0 |}.

Definition RSI_CONFIG_bad : rsi_config :=
  {| period := -14; up_line := 70; low_line := 30 |}.

(** An engine that rejects its input with an exception of its own. *)
Definition talib_MACD_failing (close : column) (fast slow signal : Z)
  : result (list float * list float * list float) :=
  Raise (Exception "inputs are all NaN").

Definition talib_RSI_failing (close : column) (timeperiod : Z)
  : result (list float) :=
  Raise (Exception "inputs are all NaN").

End Sample.

(** ** Notions used in the statements *)

(** The table of [calculate_macd] after its four column assignments. *)
Definition macd_columns (df : DataFrame) (macd signal hist : list float)
  : DataFrame :=
  <["Buy Signal" := Bools (cross_up macd signal)]>
    (<["Histogram" := Floats hist]>
       (<["Signal Line" := Floats signal]>
          (<["MACD" := Floats macd]> df))).

(** The table of [calculate_rsi] after its two column assignments. *)
Definition rsi_columns (df : DataFrame) (res : string) (rsi : list float)
    (low_line : Q) : DataFrame :=
  <["Buy Signal" := Bools (rsi_buy rsi low_line)]>
    (<[("RSI_" ++ res)%string := Floats rsi]> df).

(** Timestamps that are all defined and strictly increasing. *)
Definition strictly_increasing (ts : list datetime) : Prop :=
  (forall i a, ts !! i = Some a -> a <> NaT) /\
  (forall i k x y, i < k ->
     ts !! i = Some (Timestamp x) -> ts !! k = Some (Timestamp y) ->
     (x < y)%Z).

(** The exception the source raises for an invalid input. *)
Definition is_ValueError {A : Type} (r : result A) : Prop :=
  exists msg, r = Raise (ValueError msg).

#[global] Instance Q_eq_dec : EqDecision Q.
Proof. solve_decision. Defined.
#[global] Instance float_eq_dec : EqDecision float.
Proof. solve_decision. Defined.
#[global] Instance datetime_eq_dec : EqDecision datetime.
Proof. solve_decision. Defined.
#[global] Instance scalar_eq_dec : EqDecision scalar.
Proof. solve_decision. Defined.
#[global] Instance SignalRecord_eq_dec : EqDecision SignalRecord.
Proof. solve_decision. Defined.
#[global] Instance line_eq_dec : EqDecision line.
Proof. solve_decision. Defined.

(** How many times a line occurs in a file. *)
Definition occurrences (x : line) (ls : list line) : nat :=
  length (filter (fun y => y = x) ls).

(** Bar [i] is an upward cross of [line] over [other]: both are defined at
    [i-1] and at [i], [line[i-1] <= other[i-1]] and [line[i] > other[i]]. *)
Definition upward_cross (line other : list float) (i : nat) : Prop :=
  1 <= i /\
  exists a b c d,
    line !! (i - 1) = Some a /\ other !! (i - 1) = Some b /\
    line !! i = Some c /\ other !! i = Some d /\
    defined a /\ defined b /\ defined c /\ defined d /\
    ext_le a b /\ ext_lt d c.

(** Bar [i] is a downward cross of [value] through [low_line]: the value is
    defined at [i-1] and at [i], [value[i] < low_line] and
    [value[i-1] >= low_line]. *)
Definition downward_cross (value : list float) (low_line : Q) (i : nat)
  : Prop :=
  1 <= i /\
  exists p c,
    value !! (i - 1) = Some p /\ value !! i = Some c /\
    defined p /\ defined c /\
    ext_lt c (Fin low_line) /\ ext_le (Fin low_line) p.

(** Bar [j] is the last flagged bar. *)
Definition last_flagged (flags : list bool) (j : nat) : Prop :=
  flags !! j = Some true /\ forall k, j < k -> flags !! k <> Some true.

(** The column [name] of the table [data] points to. *)
Definition column_at (h : store) (data : ref) (name : string)
  : option column :=
  match h !! data with
  | Some df => df !! name
  | None => None
  end.

(** Every collected record carries the signal type of one of the
    indicators. *)
Definition typed_by (indicators : list indicator)
    (all_signals : list (list SignalRecord)) : Prop :=
  forall l r, l ∈ all_signals -> r ∈ l ->
    exists ind, ind ∈ indicators /\
                signal_type r = signal_type_of (__name__ ind).

(** A decision procedure for [strictly_increasing]. *)
Fixpoint increasingb (ts : list datetime) : bool :=
  match ts with
  | [] => true
  | NaT :: _ => false
  | Timestamp x :: ts' =>
      match ts' with
      | [] => true
      | NaT :: _ => false
      | Timestamp y :: _ => (x <? y)%Z && increasingb ts'
      end
  end.

(** ** The rest of the program: constructor, printed lines, main block *)




(** [screen_by_indicators] together with the line it prints (lines 153 and
    155). *)
Definition screen_by_indicators_io (to_datetime : column -> result column)
    (stock_dir : list (string * DataFrame)) (indicators : list indicator)
    (output_file : string) (h : store) (fs : gmap string (list line))
  : store * gmap string (list line) * list string * result unit :=
  match collect_signals to_datetime stock_dir indicators h with
  | (h', Raise e) => (h', fs, [], Raise e)
  | (h', Ok []) => (h', fs, ["No signals detected."], Ok tt)
  | (h', Ok all_signals) =>
      let combined_signals := concat all_signals in
      (h',
       to_csv combined_signals output_file
         (negb (path_exists fs output_file)) fs,
       [("Signals appended to " ++ output_file)%string],
       Ok tt)
  end.

(** The indicators of the main block (line 165). *)
Definition main_indicators talib_MACD talib_RSI MACD_CONFIG RSI_CONFIG
  : list indicator :=
  [indicator_macd talib_MACD MACD_CONFIG; indicator_rsi talib_RSI RSI_CONFIG].

Section Main.

(** The file system on the input side: whether a path exists, and the
    listing of a directory, each file with the table [pd.read_csv] makes of
    it. *)
Variable os_path_exists : string -> bool.
Variable os_listdir : string -> result (list (string * DataFrame)).
Variable to_datetime : column -> result column.
Variable talib_MACD :
  column -> Z -> Z -> Z -> result (list float * list float * list float).
Variable talib_RSI : column -> Z -> result (list float).
Variable MACD_CONFIG : macd_config.
Variable RSI_CONFIG : rsi_config.

(** [config.STOCK_POST_DIR] and [config.CONSOLIDATED_OUTPUT_FILE]. *)
Variable STOCK_POST_DIR : string.
Variable CONSOLIDATED_OUTPUT_FILE : string.


End Main.

(** ** A description of the run without the object store *)

(** The records of the flagged bars of a column of timestamps. *)
Definition records_at (c : column) (flags : list bool)
    (stock_symbol type : string) : list SignalRecord :=
  (fun t => {| Datetime := t; symbol := stock_symbol; signal_type := type |})
    <$> select flags (cells c).

Section PureRun.

Variable to_datetime : column -> result column.
Variable talib_MACD :
  column -> Z -> Z -> Z -> result (list float * list float * list float).
Variable talib_RSI : column -> Z -> result (list float).
Variable MACD_CONFIG : macd_config.
Variable RSI_CONFIG : rsi_config.

(** What the two indicators of the main block make of one [.csv] file: the
    table as it is left, and the two batches of records or the
    exception. *)
Definition file_run (file_name : string) (content : DataFrame)
  : DataFrame * result (list (list SignalRecord)) :=
  match content !! "Datetime" with
  | None =>
      (content,
       Raise (ValueError ("The file " ++ file_name
                            ++ " must contain a 'Datetime' column.")))
  | Some c =>
      match to_datetime c with
      | Raise e => (content, Raise e)
      | Ok c' =>
          let df0 := <["Datetime" := c']> content in
          match content !! "Close" with
          | None =>
              (df0,
               Raise (ValueError
                        "The input data must contain a 'Close' column."))
          | Some close =>
              match talib_MACD close (fast_length MACD_CONFIG)
                      (slow_length MACD_CONFIG)
                      (signal_length MACD_CONFIG) with
              | Raise e => (df0, Raise e)
              | Ok (macd, signal, hist) =>
                  let df1 := macd_columns df0 macd signal hist in
                  match talib_RSI close (period RSI_CONFIG) with
                  | Raise e => (df1, Raise e)
                  | Ok rsi =>
                      let low_line := low_line RSI_CONFIG in
                      let stock_symbol := splitext_root file_name in
                      (rsi_columns df1 "1D" rsi low_line,
                       Ok [records_at c' (cross_up macd signal)
                             stock_symbol "MACD";
                           records_at c' (rsi_buy rsi low_line)
                             stock_symbol "RSI"])
                  end
              end
          end
      end
  end.

(** The same for a directory listing: the tables made, one for each
    [.csv] file up to the first failure, and the batches or the
    exception. *)
Fixpoint dir_run (stock_dir : list (string * DataFrame))
  : list DataFrame * result (list (list SignalRecord)) :=
  match stock_dir with
  | [] => ([], Ok [])
  | (file_name, content) :: rest =>
      if endswith file_name ".csv"
      then
        match file_run file_name content with
        | (df, Raise e) => ([df], Raise e)
        | (df, Ok batches) =>
            match dir_run rest with
            | (tables, Raise e) => (df :: tables, Raise e)
            | (tables, Ok more) => (df :: tables, Ok (batches ++ more))
            end
        end
      else dir_run rest
  end.

End PureRun.

(** The [.csv] files of a listing. *)
Definition csv_files (stock_dir : list (string * DataFrame))
  : list (string * DataFrame) :=
  List.filter (fun file => endswith file.1 ".csv") stock_dir.

(** [m] is the latest of the timestamps of the flagged bars: [NaT] when
    they are all [NaT], and otherwise the timestamp of a flagged bar that no
    flagged bar exceeds. *)
Definition latest_flagged (flags : list bool) (ts : list datetime)
    (m : datetime) : Prop :=
  match m with
  | NaT =>
      forall i x, flags !! i = Some true -> ts !! i = Some x -> x = NaT
  | Timestamp t =>
      (exists i, flags !! i = Some true /\ ts !! i = Some (Timestamp t)) /\
      (forall i y, flags !! i = Some true -> ts !! i = Some (Timestamp y) ->
                   (y <= t)%Z)
  end.

(** A lower-case ASCII letter. *)
Definition is_lower (c : ascii) : bool :=
  (97 <=? nat_of_ascii c) && (nat_of_ascii c <=? 122).

(** A string made of dots only (the empty string is one). *)
Definition only_dots (s : string) : Prop :=
  forall c, In c (list_ascii_of_string s) -> c = "."%char.

(** ** More sample data *)
Module Sample2.

(** The five sample bars with their timestamps in falling order. *)
Definition falling_stamps : list datetime :=
  Sample.times [500; 400; 300; 200; 100]%Z.

Definition unsorted_bars : DataFrame :=
  <["Close" := Floats Sample.closes]>
    (<["Datetime" := Datetimes falling_stamps]> ∅).

(** A file of three bars of a rising price: no bar is flagged. *)
Definition stock_dir_rising : list (string * DataFrame) :=
  [("notes.txt", ∅); ("RISE.csv", Sample.rising_bars)].

(** An indicator function that returns the table as it got it:
    [def calculate_nothing(data): return data]. *)
Definition indicator_nothing : indicator :=
  {| __name__ := "calculate_nothing";
     call := fun data => ret (RFrame data) |}.

(** A table with two flagged bars out of three. *)
Definition flagged_table : DataFrame :=
  <["Buy Signal" := Bools [true; false; true]]>
    (<["Datetime" := Datetimes (Sample.times [100; 200; 300]%Z)]> ∅).



End Sample2.

(** ** Lemmas on the comparisons *)

Lemma float_le_spec x y : float_le x y = true <-> ext_le x y.
Proof.
  split.
  - destruct x, y; simpl; intros H; try discriminate;
      try (constructor; unfold defined; congruence).
    constructor. now apply Qle_bool_iff.
  - intros H; destruct H as [a b H | y H | x H].
    + simpl. now apply Qle_bool_iff.
    + destruct y; simpl; trivial. now elim H.
    + destruct x; simpl; trivial. now elim H.
Qed.

Lemma ext_le_defined x y : ext_le x y -> defined x /\ defined y.
Proof.
  intros [a b _ | y' H | x' H]; unfold defined in *; split; congruence.
Qed.

Lemma Qle_bool_total a b : Qle_bool a b = false -> Qle_bool b a = true.
Proof.
  intros H. apply Qle_bool_iff, Qlt_le_weak, Qnot_le_lt.
  intros H'. apply Qle_bool_iff in H'. congruence.
Qed.

Lemma float_lt_spec x y : float_lt x y = true <-> ext_lt x y.
Proof.
  unfold ext_lt. rewrite <- !float_le_spec.
  destruct x as [| |a|], y as [| |b|]; simpl;
    try (destruct (Qle_bool b a) eqn:E1; destruct (Qle_bool a b) eqn:E2; simpl);
    try (split; [discriminate | intros [? ?]; congruence]);
    try (split; [intros _; split; congruence | reflexivity]).
  apply Qle_bool_total in E1. congruence.
Qed.

Lemma ext_lt_defined x y : ext_lt x y -> defined x /\ defined y.
Proof. intros [H _]. now apply ext_le_defined. Qed.

Lemma ext_lt_not_le x y : ext_lt x y -> ~ ext_le y x.
Proof. now intros [_ H]. Qed.

(** ** Lemmas on [shift1] *)

Lemma length_shift1 s : length (shift1 s) = length s.
Proof. unfold shift1. rewrite length_take. simpl. lia. Qed.

Lemma shift1_lookup_0 s : shift1 s !! 0 = (fun _ => NaN) <$> s !! 0.
Proof. destruct s; reflexivity. Qed.

Lemma shift1_lookup_S s p :
  shift1 s !! S p = if decide (S p < length s) then s !! p else None.
Proof.
  unfold shift1. case_decide as H.
  - now rewrite lookup_take_lt by assumption.
  - rewrite lookup_take_ge by lia. reflexivity.
Qed.

(** ** Lemmas on the store operations *)

Lemma bind_ok {A B : Type} (m : M A) (k : A -> M B) h h' a :
  m h = (h', Ok a) -> bind m k h = k a h'.
Proof. intros H. unfold bind. now rewrite H. Qed.

Lemma bind_raise {A B : Type} (m : M A) (k : A -> M B) h h' e :
  m h = (h', Raise e) -> bind m k h = (h', Raise e).
Proof. intros H. unfold bind. now rewrite H. Qed.

Lemma deref_ok (h : store) data df :
  h !! data = Some df -> deref data h = (h, Ok df).
Proof. intros H. unfold deref. now rewrite H. Qed.

Lemma getcol_ok (h : store) data (df : DataFrame) name c :
  h !! data = Some df -> df !! name = Some c ->
  getcol data name h = (h, Ok c).
Proof.
  intros Hh Hc. unfold getcol. rewrite (bind_ok _ _ _ _ _ (deref_ok _ _ _ Hh)).
  now rewrite Hc.
Qed.

Lemma setcol_ok (h : store) data (df : DataFrame) name c :
  h !! data = Some df ->
  setcol data name c h = (<[data := <[name := c]> df]> h, Ok tt).
Proof.
  intros Hh. unfold setcol.
  now rewrite (bind_ok _ _ _ _ _ (deref_ok _ _ _ Hh)).
Qed.

Lemma store_insert_lookup (h : store) data (df df' : DataFrame) :
  h !! data = Some df -> <[data := df']> h !! data = Some df'.
Proof.
  intros H. apply list_lookup_insert_eq. now apply lookup_lt_Some in H.
Qed.

Lemma last_signal_ok (h : store) data df :
  h !! data = Some df -> last_signal data h = (h, last_signal_of df).
Proof.
  intros Hh. unfold last_signal.
  now rewrite (bind_ok _ _ _ _ _ (deref_ok _ _ _ Hh)).
Qed.

(** ** What the two indicator functions compute *)

Section IndicatorRuns.

Variable talib_MACD :
  column -> Z -> Z -> Z -> result (list float * list float * list float).
Variable talib_RSI : column -> Z -> result (list float).
Variable MACD_CONFIG : macd_config.
Variable RSI_CONFIG : rsi_config.

Let macd_call close :=
  talib_MACD close (fast_length MACD_CONFIG) (slow_length MACD_CONFIG)
    (signal_length MACD_CONFIG).
Let rsi_call close := talib_RSI close (period RSI_CONFIG).

Lemma calculate_macd_no_close (h : store) data (df : DataFrame) :
  h !! data = Some df -> df !! "Close" = None ->
  calculate_macd talib_MACD MACD_CONFIG data h
  = (h, Raise (ValueError "The input data must contain a 'Close' column.")).
Proof.
  intros Hh Hc. unfold calculate_macd.
  rewrite (bind_ok _ _ _ _ _ (deref_ok _ _ _ Hh)).
  now rewrite decide_True by assumption.
Qed.

Lemma calculate_macd_engine_raise (h : store) data (df : DataFrame) close e :
  h !! data = Some df -> df !! "Close" = Some close ->
  macd_call close = Raise e ->
  calculate_macd talib_MACD MACD_CONFIG data h = (h, Raise e).
Proof.
  intros Hh Hc He. unfold calculate_macd.
  rewrite (bind_ok _ _ _ _ _ (deref_ok _ _ _ Hh)).
  rewrite decide_False by congruence.
  rewrite (bind_ok _ _ _ _ _ (getcol_ok _ _ _ _ _ Hh Hc)).
  unfold macd_call in He. unfold bind, lift. now rewrite He.
Qed.

Lemma calculate_macd_run (h : store) data (df : DataFrame) close
    macd signal hist :
  h !! data = Some df -> df !! "Close" = Some close ->
  macd_call close = Ok (macd, signal, hist) ->
  calculate_macd talib_MACD MACD_CONFIG data h
  = (<[data := macd_columns df macd signal hist]> h,
     match last_signal_of (macd_columns df macd signal hist) with
     | Ok aux => Ok (data, aux)
     | Raise e => Raise e
     end).
Proof.
  intros Hh Hc He. unfold calculate_macd.
  rewrite (bind_ok _ _ _ _ _ (deref_ok _ _ _ Hh)).
  rewrite decide_False by congruence.
  rewrite (bind_ok _ _ _ _ _ (getcol_ok _ _ _ _ _ Hh Hc)).
  unfold macd_call in He.
  erewrite bind_ok by (unfold lift; rewrite He; reflexivity).
  cbv beta iota.
  erewrite bind_ok by (apply setcol_ok; eassumption).
  erewrite bind_ok
    by (apply setcol_ok; eapply store_insert_lookup; eassumption).
  rewrite list_insert_insert_eq.
  erewrite bind_ok
    by (apply setcol_ok; eapply store_insert_lookup; eassumption).
  rewrite list_insert_insert_eq.
  erewrite bind_ok
    by (apply setcol_ok; eapply store_insert_lookup; eassumption).
  rewrite list_insert_insert_eq.
  unfold bind.
  erewrite last_signal_ok by (eapply store_insert_lookup; eassumption).
  fold (macd_columns df macd signal hist).
  now destruct (last_signal_of _).
Qed.

Lemma calculate_rsi_no_close (h : store) data res (df : DataFrame) :
  h !! data = Some df -> df !! "Close" = None ->
  calculate_rsi talib_RSI RSI_CONFIG data res h
  = (h, Raise (ValueError "The input data must contain a 'Close' column.")).
Proof.
  intros Hh Hc. unfold calculate_rsi.
  rewrite (bind_ok _ _ _ _ _ (deref_ok _ _ _ Hh)).
  now rewrite decide_True by assumption.
Qed.

Lemma calculate_rsi_engine_raise (h : store) data res (df : DataFrame)
    close e :
  h !! data = Some df -> df !! "Close" = Some close ->
  rsi_call close = Raise e ->
  calculate_rsi talib_RSI RSI_CONFIG data res h = (h, Raise e).
Proof.
  intros Hh Hc He. unfold calculate_rsi.
  rewrite (bind_ok _ _ _ _ _ (deref_ok _ _ _ Hh)).
  rewrite decide_False by congruence.
  rewrite (bind_ok _ _ _ _ _ (getcol_ok _ _ _ _ _ Hh Hc)).
  unfold rsi_call in He. unfold bind, lift. now rewrite He.
Qed.

Lemma calculate_rsi_run (h : store) data res (df : DataFrame) close rsi :
  h !! data = Some df -> df !! "Close" = Some close ->
  rsi_call close = Ok rsi ->
  calculate_rsi talib_RSI RSI_CONFIG data res h
  = (<[data := rsi_columns df res rsi (low_line RSI_CONFIG)]> h,
     match last_signal_of (rsi_columns df res rsi (low_line RSI_CONFIG)) with
     | Ok aux => Ok (data, aux)
     | Raise e => Raise e
     end).
Proof.
  intros Hh Hc He. unfold calculate_rsi.
  rewrite (bind_ok _ _ _ _ _ (deref_ok _ _ _ Hh)).
  rewrite decide_False by congruence.
  rewrite (bind_ok _ _ _ _ _ (getcol_ok _ _ _ _ _ Hh Hc)).
  unfold rsi_call in He.
  erewrite bind_ok by (unfold lift; rewrite He; reflexivity).
  erewrite bind_ok by (apply setcol_ok; eassumption).
  erewrite bind_ok
    by (apply setcol_ok; eapply store_insert_lookup; eassumption).
  rewrite list_insert_insert_eq.
  unfold bind.
  erewrite last_signal_ok by (eapply store_insert_lookup; eassumption).
  fold (rsi_columns df res rsi (low_line RSI_CONFIG)).
  now destruct (last_signal_of _).
Qed.

End IndicatorRuns.

(** ** Lemmas on the crossover flags *)

Lemma length_cross_up macd signal :
  length macd = length signal -> length (cross_up macd signal) = length macd.
Proof.
  intros H. unfold cross_up, series_and, series_le, series_gt.
  rewrite !length_zip_with, !length_shift1. lia.
Qed.

Lemma length_rsi_buy rsi low_line :
  length (rsi_buy rsi low_line) = length rsi.
Proof.
  unfold rsi_buy, series_and, series_lt_scalar, series_ge_scalar.
  rewrite length_zip_with, !length_fmap, length_shift1. lia.
Qed.

Lemma cross_up_Some_true macd signal i :
  cross_up macd signal !! i = Some true <->
  exists p a b c d,
    i = S p /\ macd !! p = Some a /\ signal !! p = Some b /\
    macd !! i = Some c /\ signal !! i = Some d /\
    float_le a b = true /\ float_lt d c = true.
Proof.
  unfold cross_up, series_and, series_le, series_gt.
  rewrite lookup_zip_with_Some. split.
  - intros (x & y & Hxy & Hx & Hy).
    apply lookup_zip_with_Some in Hx as (a & b & -> & Ha & Hb).
    apply lookup_zip_with_Some in Hy as (c & d & -> & Hc & Hd).
    symmetry in Hxy. apply andb_true_iff in Hxy as [H1 H2].
    destruct i as [|p].
    + rewrite shift1_lookup_0 in Ha.
      destruct (macd !! 0); simpl in Ha; [|discriminate].
      injection Ha as <-. discriminate.
    + rewrite shift1_lookup_S in Ha, Hb.
      repeat case_decide; try discriminate.
      exists p, a, b, c, d. auto 10.
  - intros (p & a & b & c & d & -> & Ha & Hb & Hc & Hd & H1 & H2).
    exists (float_le a b), (float_gt c d). split; [|split].
    + unfold float_gt. now rewrite H1, H2.
    + apply lookup_zip_with_Some. exists a, b.
      rewrite !shift1_lookup_S.
      rewrite !decide_True by (eapply lookup_lt_Some; eassumption). auto.
    + apply lookup_zip_with_Some. exists c, d. auto.
Qed.

Lemma rsi_buy_Some_true rsi low_line i :
  rsi_buy rsi low_line !! i = Some true <->
  exists p a c,
    i = S p /\ rsi !! p = Some a /\ rsi !! i = Some c /\
    float_lt c (Fin low_line) = true /\ float_le (Fin low_line) a = true.
Proof.
  unfold rsi_buy, series_and, series_lt_scalar, series_ge_scalar.
  rewrite lookup_zip_with_Some. split.
  - intros (x & y & Hxy & Hx & Hy).
    apply list_lookup_fmap_Some in Hx as (c & -> & Hc).
    apply list_lookup_fmap_Some in Hy as (a & -> & Ha).
    symmetry in Hxy. apply andb_true_iff in Hxy as [H1 H2].
    destruct i as [|p].
    + rewrite shift1_lookup_0 in Ha. rewrite Hc in Ha. simpl in Ha.
      injection Ha as <-. discriminate.
    + rewrite shift1_lookup_S in Ha. case_decide; [|discriminate].
      exists p, a, c. auto 10.
  - intros (p & a & c & -> & Ha & Hc & H1 & H2).
    exists (float_lt c (Fin low_line)), (float_ge a (Fin low_line)).
    split; [|split].
    + unfold float_ge. now rewrite H1, H2.
    + apply list_lookup_fmap_Some. eauto.
    + apply list_lookup_fmap_Some. exists a. split; [reflexivity|].
      rewrite shift1_lookup_S.
      rewrite decide_True by (eapply lookup_lt_Some; eassumption). auto.
Qed.

Lemma cross_up_upward_cross macd signal i :
  cross_up macd signal !! i = Some true <-> upward_cross macd signal i.
Proof.
  rewrite cross_up_Some_true. unfold upward_cross. split.
  - intros (p & a & b & c & d & -> & Ha & Hb & Hc & Hd & H1 & H2).
    apply float_le_spec in H1. apply float_lt_spec in H2.
    destruct (ext_le_defined _ _ H1), (ext_lt_defined _ _ H2).
    split; [lia|]. exists a, b, c, d.
    replace (S p - 1) with p by lia. auto 12.
  - intros (Hi & a & b & c & d & Ha & Hb & Hc & Hd & _ & _ & _ & _ & H1 & H2).
    destruct i as [|p]; [lia|]. replace (S p - 1) with p in * by lia.
    apply float_le_spec in H1. apply float_lt_spec in H2.
    exists p, a, b, c, d. auto 10.
Qed.

Lemma rsi_buy_downward_cross rsi low_line i :
  rsi_buy rsi low_line !! i = Some true <-> downward_cross rsi low_line i.
Proof.
  rewrite rsi_buy_Some_true. unfold downward_cross. split.
  - intros (p & a & c & -> & Ha & Hc & H1 & H2).
    apply float_lt_spec in H1. apply float_le_spec in H2.
    destruct (ext_lt_defined _ _ H1), (ext_le_defined _ _ H2).
    split; [lia|]. exists a, c.
    replace (S p - 1) with p by lia. auto 10.
  - intros (Hi & a & c & Ha & Hc & _ & _ & H1 & H2).
    destruct i as [|p]; [lia|]. replace (S p - 1) with p in * by lia.
    apply float_lt_spec in H1. apply float_le_spec in H2.
    exists p, a, c. auto 10.
Qed.

Lemma lookup_bool_not_true (flags : list bool) i :
  i < length flags -> flags !! i <> Some true -> flags !! i = Some false.
Proof.
  intros Hi Hn. destruct (lookup_lt_is_Some_2 flags i Hi) as [[|] Hb];
    congruence.
Qed.

(** ** Lemmas on the most recent signal *)

Lemma existsb_id_false (flags : list bool) :
  existsb id flags = false <-> forall i, flags !! i <> Some true.
Proof.
  induction flags as [|b flags IH]; simpl.
  - split; [intros _ i; now rewrite lookup_nil | reflexivity].
  - rewrite orb_false_iff, IH. split.
    + intros [Hb H] [|i]; simpl; [unfold id in Hb; congruence | apply H].
    + intros H. split.
      * specialize (H 0). simpl in H. unfold id. destruct b; congruence.
      * intros i. apply (H (S i)).
Qed.

Lemma existsb_id_true (flags : list bool) j :
  flags !! j = Some true -> existsb id flags = true.
Proof.
  intros H. destruct (existsb id flags) eqn:E; [reflexivity|].
  rewrite existsb_id_false in E. now elim (E j).
Qed.

Lemma existsb_id_flagged (flags : list bool) :
  existsb id flags = true -> exists i, flags !! i = Some true.
Proof.
  induction flags as [|b flags IH]; simpl; [discriminate|].
  destruct b; simpl.
  - intros _. now exists 0.
  - intros H. destruct (IH H) as [i Hi]. now exists (S i).
Qed.

Lemma select_no_flag {A : Type} (flags : list bool) (xs : list A) :
  (forall i, flags !! i <> Some true) -> select flags xs = [].
Proof.
  revert xs. induction flags as [|b flags IH]; intros xs H; [reflexivity|].
  destruct xs as [|x xs]; [reflexivity|]. simpl.
  destruct b; [now elim (H 0)|]. apply IH. intros i. apply (H (S i)).
Qed.

Lemma strictly_increasing_tail t ts :
  strictly_increasing (t :: ts) -> strictly_increasing ts.
Proof.
  intros [Hdef Hinc]. split.
  - intros i a Ha. now apply (Hdef (S i)).
  - intros i k x y Hik Hx Hy. apply (Hinc (S i) (S k)); [lia|done|done].
Qed.

Lemma select_last_max flags ts j t :
  strictly_increasing ts -> last_flagged flags j ->
  ts !! j = Some (Timestamp t) ->
  foldr datetime_max NaT (select flags ts) = Timestamp t.
Proof.
  revert ts j. induction flags as [|b flags IH]; intros ts j Hinc [Hj Hlast] Ht.
  - now rewrite lookup_nil in Hj.
  - destruct ts as [|x ts]; [now rewrite lookup_nil in Ht|].
    destruct j as [|j]; simpl in Hj, Ht.
    + injection Hj as ->. injection Ht as ->. simpl.
      rewrite select_no_flag; [reflexivity|].
      intros i. apply (Hlast (S i)). lia.
    + assert (IH' : foldr datetime_max NaT (select flags ts) = Timestamp t).
      { apply (IH ts j); [now apply strictly_increasing_tail with x | | done].
        split; [done|]. intros k Hk. apply (Hlast (S k)). lia. }
      simpl. destruct b; [|exact IH']. simpl. rewrite IH'.
      destruct Hinc as [Hdef Hinc].
      destruct x as [|x0]; [now elim (Hdef 0 NaT)|]. simpl.
      f_equal. assert ((x0 < t)%Z) by (apply (Hinc 0 (S j)); [lia|done|done]).
      lia.
Qed.

Lemma exists_last_flagged (flags : list bool) :
  (exists i, flags !! i = Some true) -> exists j, last_flagged flags j.
Proof.
  induction flags as [|b flags IH]; intros [i Hi].
  - now rewrite lookup_nil in Hi.
  - destruct (existsb id flags) eqn:Hx.
    + destruct (existsb_id_flagged _ Hx) as [i' Hi'].
      destruct (IH (ex_intro _ i' Hi')) as [j [Hj Hlast]].
      exists (S j). split; [exact Hj|].
      intros [|k] Hk; [lia|]. simpl. apply Hlast. lia.
    + rewrite existsb_id_false in Hx. destruct i as [|i]; simpl in Hi.
      * injection Hi as ->. exists 0. split; [reflexivity|].
        intros [|k] Hk; [lia|]. simpl. apply Hx.
      * now elim (Hx i).
Qed.

Lemma length_cross_up_le macd signal :
  length (cross_up macd signal) <= length macd.
Proof.
  unfold cross_up, series_and, series_le, series_gt.
  rewrite !length_zip_with, !length_shift1. lia.
Qed.

Lemma last_signal_of_macd_columns (df : DataFrame) macd signal hist :
  last_signal_of (macd_columns df macd signal hist)
  = if existsb id (cross_up macd signal)
    then match df !! "Datetime" with
         | None => Raise (KeyError "Datetime")
         | Some c =>
             Ok (Some (column_max (column_select (cross_up macd signal) c)))
         end
    else Ok None.
Proof.
  unfold last_signal_of, mask_of, macd_columns.
  rewrite lookup_insert_eq. now rewrite !lookup_insert_ne by done.
Qed.

Lemma last_signal_of_rsi_columns (df : DataFrame) res rsi low_line :
  last_signal_of (rsi_columns df res rsi low_line)
  = if existsb id (rsi_buy rsi low_line)
    then match df !! "Datetime" with
         | None => Raise (KeyError "Datetime")
         | Some c =>
             Ok (Some (column_max (column_select (rsi_buy rsi low_line) c)))
         end
    else Ok None.
Proof.
  unfold last_signal_of, mask_of, rsi_columns.
  rewrite lookup_insert_eq. now rewrite !lookup_insert_ne by done.
Qed.

(** ** The crossover flags and the most recent signal date *)

Section IndicatorClaims.

Variable talib_MACD :
  column -> Z -> Z -> Z -> result (list float * list float * list float).
Variable talib_RSI : column -> Z -> result (list float).
Variable MACD_CONFIG : macd_config.
Variable RSI_CONFIG : rsi_config.

(** C1.  After [calculate_macd], the ['Buy Signal'] column of the caller's
    table holds, for the MACD line and the signal line TA-Lib returned,
    one flag per bar; the flag of bar [i] is true exactly when [i >= 1],
    both lines are defined at [i-1] and at [i], [macd[i-1] <= signal[i-1]]
    and [macd[i] > signal[i]].  A bar where the line is not strictly above
    the other line is never flagged, whatever the prior bar was (equality
    at the prior bar alone does not flag). *)
Theorem macd_flag_is_upward_cross (h : store) data (df : DataFrame) close
    macd signal hist :
  h !! data = Some df -> df !! "Close" = Some close ->
  talib_MACD close (fast_length MACD_CONFIG) (slow_length MACD_CONFIG)
    (signal_length MACD_CONFIG) = Ok (macd, signal, hist) ->
  length macd = length signal ->
  exists flags,
    column_at (calculate_macd talib_MACD MACD_CONFIG data h).1 data
      "Buy Signal" = Some (Bools flags) /\
    length flags = length macd /\
    (forall i, flags !! i = Some true <-> upward_cross macd signal i) /\
    (forall i c d, macd !! i = Some c -> signal !! i = Some d ->
       ext_le c d -> flags !! i <> Some true).
Proof.
  intros Hh Hc He Hlen. exists (cross_up macd signal).
  rewrite (calculate_macd_run _ _ _ _ _ _ _ _ _ Hh Hc He). simpl.
  unfold column_at. rewrite (store_insert_lookup _ _ _ _ Hh).
  split; [apply lookup_insert_eq|].
  split; [now apply length_cross_up|].
  split; [apply cross_up_upward_cross|].
  intros i c d Hci Hdi Hle Hflag.
  apply cross_up_upward_cross in Hflag
    as (_ & a & b & c' & d' & _ & _ & Hc' & Hd' & _ & _ & _ & _ & _ & Hlt).
  rewrite Hci in Hc'. rewrite Hdi in Hd'.
  injection Hc' as <-. injection Hd' as <-.
  now apply ext_lt_not_le in Hlt.
Qed.

(** C2.  After [calculate_rsi], the ['Buy Signal'] column of the caller's
    table holds one flag per bar of the RSI series TA-Lib returned; the
    flag of bar [i] is true exactly when the RSI is defined at [i-1] and at
    [i], [rsi[i] < low_line] and [rsi[i-1] >= low_line].  So when the RSI
    is at or above the line at bar [d-1], below it from bar [d] up to bar
    [r-1], and back at or above it at bar [r], bar [d] is flagged and no
    bar after [d] up to the recovery bar [r] is. *)
Theorem rsi_flag_is_downward_cross (h : store) data res (df : DataFrame)
    close rsi :
  h !! data = Some df -> df !! "Close" = Some close ->
  talib_RSI close (period RSI_CONFIG) = Ok rsi ->
  exists flags,
    column_at (calculate_rsi talib_RSI RSI_CONFIG data res h).1 data
      "Buy Signal" = Some (Bools flags) /\
    length flags = length rsi /\
    (forall i, flags !! i = Some true
               <-> downward_cross rsi (low_line RSI_CONFIG) i) /\
    (forall d r,
       1 <= d -> d < r ->
       (exists p, rsi !! (d - 1) = Some p
                  /\ ext_le (Fin (low_line RSI_CONFIG)) p) ->
       (forall j, d <= j < r ->
          exists v, rsi !! j = Some v
                    /\ ext_lt v (Fin (low_line RSI_CONFIG))) ->
       (exists v, rsi !! r = Some v
                  /\ ext_le (Fin (low_line RSI_CONFIG)) v) ->
       flags !! d = Some true /\
       forall j, d < j <= r -> flags !! j = Some false).
Proof.
  intros Hh Hc He. exists (rsi_buy rsi (low_line RSI_CONFIG)).
  rewrite (calculate_rsi_run _ _ _ _ _ _ _ _ Hh Hc He). simpl.
  unfold column_at. rewrite (store_insert_lookup _ _ _ _ Hh).
  split; [apply lookup_insert_eq|].
  split; [apply length_rsi_buy|].
  split; [apply rsi_buy_downward_cross|].
  intros d r Hd Hdr (p & Hp & Hpl) Hbelow (v & Hv & Hvl). split.
  - apply rsi_buy_downward_cross. split; [done|].
    destruct (Hbelow d) as (c & Hcd & Hcl); [lia|].
    destruct (ext_le_defined _ _ Hpl), (ext_lt_defined _ _ Hcl).
    exists p, c. auto 10.
  - intros j Hj. apply lookup_bool_not_true.
    + rewrite length_rsi_buy.
      apply lookup_lt_Some in Hv. lia.
    + intros Hflag. apply rsi_buy_downward_cross in Hflag
        as (_ & p' & c' & Hp' & _ & _ & _ & _ & Hle).
      destruct (Hbelow (j - 1)) as (w & Hw & Hwl); [lia|].
      rewrite Hw in Hp'. injection Hp' as <-.
      now apply ext_lt_not_le in Hwl.
Qed.

(** C8.  When the timestamps of the table are strictly increasing and
    some bar is flagged, there is a last flagged bar, and [calculate_macd]
    and [calculate_rsi] return, next to the table, the timestamp of that
    bar. *)
Theorem last_signal_is_last_flagged_bar (h : store) data (df : DataFrame)
    close ts :
  h !! data = Some df -> df !! "Close" = Some close ->
  df !! "Datetime" = Some (Datetimes ts) -> strictly_increasing ts ->
  (forall macd signal hist,
     talib_MACD close (fast_length MACD_CONFIG) (slow_length MACD_CONFIG)
       (signal_length MACD_CONFIG) = Ok (macd, signal, hist) ->
     length macd = length ts ->
     (exists i, cross_up macd signal !! i = Some true) ->
     exists j t,
       last_flagged (cross_up macd signal) j /\
       ts !! j = Some (Timestamp t) /\
       (calculate_macd talib_MACD MACD_CONFIG data h).2
       = Ok (data, Some (STime (Timestamp t)))) /\
  (forall res rsi,
     talib_RSI close (period RSI_CONFIG) = Ok rsi ->
     length rsi = length ts ->
     (exists i, rsi_buy rsi (low_line RSI_CONFIG) !! i = Some true) ->
     exists j t,
       last_flagged (rsi_buy rsi (low_line RSI_CONFIG)) j /\
       ts !! j = Some (Timestamp t) /\
       (calculate_rsi talib_RSI RSI_CONFIG data res h).2
       = Ok (data, Some (STime (Timestamp t)))).
Proof.
  intros Hh Hc Hts Hinc.
  assert (Hstamp : forall j, j < length ts ->
                     exists t, ts !! j = Some (Timestamp t)).
  { intros j Hj. destruct (lookup_lt_is_Some_2 ts j Hj) as [[|t] Ht].
    - now elim (proj1 Hinc j NaT).
    - now exists t. }
  split.
  - intros macd signal hist He Hlen Hsome.
    destruct (exists_last_flagged _ Hsome) as [j Hlast].
    destruct (Hstamp j) as [t Ht].
    { pose proof (lookup_lt_Some _ _ _ (proj1 Hlast)).
      pose proof (length_cross_up_le macd signal). lia. }
    exists j, t. split; [exact Hlast|]. split; [exact Ht|].
    rewrite (calculate_macd_run _ _ _ _ _ _ _ _ _ Hh Hc He). simpl.
    rewrite last_signal_of_macd_columns, Hts.
    rewrite (existsb_id_true _ j) by apply Hlast. simpl.
    now rewrite (select_last_max _ _ j t).
  - intros res rsi He Hlen Hsome.
    destruct (exists_last_flagged _ Hsome) as [j Hlast].
    destruct (Hstamp j) as [t Ht].
    { pose proof (lookup_lt_Some _ _ _ (proj1 Hlast)) as Hlt.
      rewrite length_rsi_buy in Hlt. lia. }
    exists j, t. split; [exact Hlast|]. split; [exact Ht|].
    rewrite (calculate_rsi_run _ _ _ _ _ _ _ _ Hh Hc He). simpl.
    rewrite last_signal_of_rsi_columns, Hts.
    rewrite (existsb_id_true _ j) by apply Hlast. simpl.
    now rewrite (select_last_max _ _ j t).
Qed.

(** C10.  When no bar is flagged, [calculate_macd] and [calculate_rsi]
    return normally, and what they return next to the table is [None]. *)
Theorem no_flag_gives_None (h : store) data (df : DataFrame) close :
  h !! data = Some df -> df !! "Close" = Some close ->
  (forall macd signal hist,
     talib_MACD close (fast_length MACD_CONFIG) (slow_length MACD_CONFIG)
       (signal_length MACD_CONFIG) = Ok (macd, signal, hist) ->
     (forall i, cross_up macd signal !! i <> Some true) ->
     column_at (calculate_macd talib_MACD MACD_CONFIG data h).1 data
       "Buy Signal" = Some (Bools (cross_up macd signal)) /\
     (calculate_macd talib_MACD MACD_CONFIG data h).2 = Ok (data, None)) /\
  (forall res rsi,
     talib_RSI close (period RSI_CONFIG) = Ok rsi ->
     (forall i, rsi_buy rsi (low_line RSI_CONFIG) !! i <> Some true) ->
     column_at (calculate_rsi talib_RSI RSI_CONFIG data res h).1 data
       "Buy Signal" = Some (Bools (rsi_buy rsi (low_line RSI_CONFIG))) /\
     (calculate_rsi talib_RSI RSI_CONFIG data res h).2 = Ok (data, None)).
Proof.
  intros Hh Hc. split.
  - intros macd signal hist He Hnone.
    rewrite (calculate_macd_run _ _ _ _ _ _ _ _ _ Hh Hc He). simpl.
    unfold column_at. rewrite (store_insert_lookup _ _ _ _ Hh).
    split; [apply lookup_insert_eq|].
    rewrite last_signal_of_macd_columns.
    apply existsb_id_false in Hnone. now rewrite Hnone.
  - intros res rsi He Hnone.
    rewrite (calculate_rsi_run _ _ _ _ _ _ _ _ Hh Hc He). simpl.
    unfold column_at. rewrite (store_insert_lookup _ _ _ _ Hh).
    split; [apply lookup_insert_eq|].
    rewrite last_signal_of_rsi_columns.
    apply existsb_id_false in Hnone. now rewrite Hnone.
Qed.

End IndicatorClaims.

(** ** Failures and in-place updates of the indicator functions *)

Section IndicatorEffects.

Variable talib_MACD :
  column -> Z -> Z -> Z -> result (list float * list float * list float).
Variable talib_RSI : column -> Z -> result (list float).
Variable MACD_CONFIG : macd_config.
Variable RSI_CONFIG : rsi_config.

(** The result of the two functions, case by case. *)
Lemma calculate_macd_outcome (h : store) data (df : DataFrame) :
  h !! data = Some df ->
  (calculate_macd talib_MACD MACD_CONFIG data h).2
  = match df !! "Close" with
    | None =>
        Raise (ValueError "The input data must contain a 'Close' column.")
    | Some close =>
        match talib_MACD close (fast_length MACD_CONFIG)
                (slow_length MACD_CONFIG) (signal_length MACD_CONFIG) with
        | Raise e => Raise e
        | Ok (macd, signal, hist) =>
            if existsb id (cross_up macd signal)
            then match df !! "Datetime" with
                 | None => Raise (KeyError "Datetime")
                 | Some c =>
                     Ok (data,
                         Some (column_max
                                 (column_select (cross_up macd signal) c)))
                 end
            else Ok (data, None)
        end
    end.
Proof.
  intros Hh. destruct (df !! "Close") as [close|] eqn:Hc.
  - destruct (talib_MACD _ _ _ _) as [[[macd signal] hist]|e] eqn:He.
    + rewrite (calculate_macd_run _ _ _ _ _ _ _ _ _ Hh Hc He). simpl.
      rewrite last_signal_of_macd_columns.
      destruct (existsb _ _); [|reflexivity].
      now destruct (df !! "Datetime").
    + now rewrite (calculate_macd_engine_raise _ _ _ _ _ _ _ Hh Hc He).
  - now rewrite (calculate_macd_no_close _ _ _ _ _ Hh Hc).
Qed.

Lemma calculate_rsi_outcome (h : store) data res (df : DataFrame) :
  h !! data = Some df ->
  (calculate_rsi talib_RSI RSI_CONFIG data res h).2
  = match df !! "Close" with
    | None =>
        Raise (ValueError "The input data must contain a 'Close' column.")
    | Some close =>
        match talib_RSI close (period RSI_CONFIG) with
        | Raise e => Raise e
        | Ok rsi =>
            let flags := rsi_buy rsi (low_line RSI_CONFIG) in
            if existsb id flags
            then match df !! "Datetime" with
                 | None => Raise (KeyError "Datetime")
                 | Some c =>
                     Ok (data, Some (column_max (column_select flags c)))
                 end
            else Ok (data, None)
        end
    end.
Proof.
  intros Hh. destruct (df !! "Close") as [close|] eqn:Hc.
  - destruct (talib_RSI _ _) as [rsi|e] eqn:He.
    + rewrite (calculate_rsi_run _ _ _ _ _ _ _ _ Hh Hc He). simpl.
      rewrite last_signal_of_rsi_columns.
      destruct (existsb _ _); [|reflexivity].
      now destruct (df !! "Datetime").
    + now rewrite (calculate_rsi_engine_raise _ _ _ _ _ _ _ _ Hh Hc He).
  - now rewrite (calculate_rsi_no_close _ _ _ _ _ _ Hh Hc).
Qed.

(** C6, as the code has it.  [calculate_macd] and [calculate_rsi] check
    neither the length of the series nor the parameters.  They fail in
    three cases only: with [ValueError] when the table has no ['Close']
    column; with the exception TA-Lib raises for the series and the
    parameters handed to it, passed on unchanged; with [KeyError] when a
    bar is flagged and the table has no ['Datetime'] column. *)
Theorem indicator_failure_cases (h : store) data (df : DataFrame) :
  h !! data = Some df ->
  (forall e,
     (calculate_macd talib_MACD MACD_CONFIG data h).2 = Raise e <->
     (df !! "Close" = None /\
      e = ValueError "The input data must contain a 'Close' column.") \/
     (exists close,
        df !! "Close" = Some close /\
        talib_MACD close (fast_length MACD_CONFIG)
          (slow_length MACD_CONFIG) (signal_length MACD_CONFIG)
        = Raise e) \/
     (exists close macd signal hist i,
        df !! "Close" = Some close /\
        talib_MACD close (fast_length MACD_CONFIG)
          (slow_length MACD_CONFIG) (signal_length MACD_CONFIG)
        = Ok (macd, signal, hist) /\
        cross_up macd signal !! i = Some true /\
        df !! "Datetime" = None /\ e = KeyError "Datetime")) /\
  (forall res e,
     (calculate_rsi talib_RSI RSI_CONFIG data res h).2 = Raise e <->
     (df !! "Close" = None /\
      e = ValueError "The input data must contain a 'Close' column.") \/
     (exists close,
        df !! "Close" = Some close /\
        talib_RSI close (period RSI_CONFIG) = Raise e) \/
     (exists close rsi i,
        df !! "Close" = Some close /\
        talib_RSI close (period RSI_CONFIG) = Ok rsi /\
        rsi_buy rsi (low_line RSI_CONFIG) !! i = Some true /\
        df !! "Datetime" = None /\ e = KeyError "Datetime")).
Proof.
  intros Hh. split.
  - intros e. rewrite (calculate_macd_outcome _ _ _ Hh).
    destruct (df !! "Close") as [close|] eqn:Hc.
    2: { split; [intros [= <-]; auto|].
         intros [[_ ->]|[(? & ? & _)|(? & ? & ? & ? & ? & ? & _)]];
           congruence. }
    destruct (talib_MACD _ _ _ _) as [[[macd signal] hist]|e'] eqn:He.
    2: { split; [intros [= <-]; eauto|].
         intros [[? _]|[(? & ? & ?)|(? & ? & ? & ? & ? & ? & ? & _)]];
           congruence. }
    destruct (existsb id (cross_up macd signal)) eqn:Hx.
    2: { split; [discriminate|].
         intros [[? _]|[(? & ? & ?)|(? & ? & ? & ? & ? & ? & ? & Hi & _)]];
           try apply existsb_id_true in Hi; congruence. }
    destruct (existsb_id_flagged _ Hx) as [i Hi].
    destruct (df !! "Datetime") as [c|] eqn:Hd.
    + split; [discriminate|].
      intros [[? _]|[(? & ? & ?)|(? & ? & ? & ? & ? & ? & ? & _ & ? & _)]];
        congruence.
    + split; [intros [= <-]; eauto 12|].
      intros [[? _]|[(? & ? & ?)|(? & ? & ? & ? & ? & ? & ? & _ & _ & ->)]];
        congruence.
  - intros res e. rewrite (calculate_rsi_outcome _ _ _ _ Hh).
    destruct (df !! "Close") as [close|] eqn:Hc.
    2: { split; [intros [= <-]; auto|].
         intros [[_ ->]|[(? & ? & _)|(? & ? & ? & ? & _)]];
           congruence. }
    destruct (talib_RSI _ _) as [rsi|e'] eqn:He.
    2: { split; [intros [= <-]; eauto|].
         intros [[? _]|[(? & ? & ?)|(? & ? & ? & ? & ? & _)]];
           congruence. }
    cbv zeta.
    destruct (existsb id (rsi_buy rsi (low_line RSI_CONFIG))) eqn:Hx.
    2: { split; [discriminate|].
         intros [[? _]|[(? & ? & ?)|(? & ? & ? & ? & ? & Hi & _)]];
           try apply existsb_id_true in Hi; congruence. }
    destruct (existsb_id_flagged _ Hx) as [i Hi].
    destruct (df !! "Datetime") as [c|] eqn:Hd.
    + split; [discriminate|].
      intros [[? _]|[(? & ? & ?)|(? & ? & ? & ? & ? & _ & ? & _)]];
        congruence.
    + split; [intros [= <-]; eauto 12|].
      intros [[? _]|[(? & ? & ?)|(? & ? & ? & ? & ? & _ & _ & ->)]];
        congruence.
Qed.

(** C7, as the code has it.  [calculate_macd] and [calculate_rsi] write
    their series into the caller's table: the object [data] points to is
    updated in place and is the table they return.  The columns ['MACD'],
    ['Signal Line'], ['Histogram'] and ['Buy Signal'] (for the RSI:
    ['RSI_<res>'] and ['Buy Signal']) are added or overwritten; every other
    column of that table, ['Close'] and ['Datetime'] among them, and every
    other object are left as they were; when the call fails at the check
    of the ['Close'] column or inside TA-Lib, nothing is written. *)
Theorem indicator_updates_table_in_place (h : store) data (df : DataFrame) :
  h !! data = Some df ->
  (length (calculate_macd talib_MACD MACD_CONFIG data h).1 = length h /\
   (forall other, other <> data ->
      (calculate_macd talib_MACD MACD_CONFIG data h).1 !! other
      = h !! other) /\
   (forall name,
      name <> "MACD" -> name <> "Signal Line" -> name <> "Histogram" ->
      name <> "Buy Signal" ->
      column_at (calculate_macd talib_MACD MACD_CONFIG data h).1 data name
      = df !! name) /\
   (forall d aux,
      (calculate_macd talib_MACD MACD_CONFIG data h).2 = Ok (d, aux) ->
      d = data /\
      exists macd signal hist,
        (calculate_macd talib_MACD MACD_CONFIG data h).1 !! data
        = Some (macd_columns df macd signal hist)) /\
   (forall e,
      df !! "Close" = None \/
      (exists close,
         df !! "Close" = Some close /\
         talib_MACD close (fast_length MACD_CONFIG)
           (slow_length MACD_CONFIG) (signal_length MACD_CONFIG)
         = Raise e) ->
      (calculate_macd talib_MACD MACD_CONFIG data h).1 = h)) /\
  (forall res,
     length (calculate_rsi talib_RSI RSI_CONFIG data res h).1 = length h /\
     (forall other, other <> data ->
        (calculate_rsi talib_RSI RSI_CONFIG data res h).1 !! other
        = h !! other) /\
     (forall name,
        name <> ("RSI_" ++ res)%string -> name <> "Buy Signal" ->
        column_at (calculate_rsi talib_RSI RSI_CONFIG data res h).1 data name
        = df !! name) /\
     (forall d aux,
        (calculate_rsi talib_RSI RSI_CONFIG data res h).2 = Ok (d, aux) ->
        d = data /\
        exists rsi,
          (calculate_rsi talib_RSI RSI_CONFIG data res h).1 !! data
          = Some (rsi_columns df res rsi (low_line RSI_CONFIG))) /\
     (forall e,
        df !! "Close" = None \/
        (exists close,
           df !! "Close" = Some close /\
           talib_RSI close (period RSI_CONFIG) = Raise e) ->
        (calculate_rsi talib_RSI RSI_CONFIG data res h).1 = h)).
Proof.
  intros Hh. split; [|intros res].
  - destruct (df !! "Close") as [close|] eqn:Hc.
    + destruct (talib_MACD close (fast_length MACD_CONFIG)
                  (slow_length MACD_CONFIG) (signal_length MACD_CONFIG))
        as [[[macd signal] hist]|e'] eqn:He.
      * rewrite (calculate_macd_run _ _ _ _ _ _ _ _ _ Hh Hc He). simpl.
        split; [apply length_insert|].
        split; [intros; now apply list_lookup_insert_ne|].
        split; [|split].
        -- intros name H1 H2 H3 H4. unfold column_at, macd_columns.
           rewrite (store_insert_lookup _ _ _ _ Hh).
           now rewrite !lookup_insert_ne by congruence.
        -- intros d aux Hr.
           destruct (last_signal_of _); [|discriminate].
           injection Hr as <- _. split; [reflexivity|].
           exists macd, signal, hist. now apply store_insert_lookup with df.
        -- intros e [?|(? & ? & ?)]; congruence.
      * rewrite (calculate_macd_engine_raise _ _ _ _ _ _ _ Hh Hc He). simpl.
        unfold column_at. rewrite Hh. repeat split; auto; discriminate.
    + rewrite (calculate_macd_no_close _ _ _ _ _ Hh Hc). simpl.
      unfold column_at. rewrite Hh. repeat split; auto; discriminate.
  - destruct (df !! "Close") as [close|] eqn:Hc.
    + destruct (talib_RSI close (period RSI_CONFIG)) as [rsi|e'] eqn:He.
      * rewrite (calculate_rsi_run _ _ _ _ _ _ _ _ Hh Hc He). simpl.
        split; [apply length_insert|].
        split; [intros; now apply list_lookup_insert_ne|].
        split; [|split].
        -- intros name H1 H2. unfold column_at, rsi_columns.
           rewrite (store_insert_lookup _ _ _ _ Hh).
           now rewrite !lookup_insert_ne by congruence.
        -- intros d aux Hr.
           destruct (last_signal_of _); [|discriminate].
           injection Hr as <- _. split; [reflexivity|].
           exists rsi. now apply store_insert_lookup with df.
        -- intros e [?|(? & ? & ?)]; congruence.
      * rewrite (calculate_rsi_engine_raise _ _ _ _ _ _ _ _ Hh Hc He). simpl.
        unfold column_at. rewrite Hh. repeat split; auto; discriminate.
    + rewrite (calculate_rsi_no_close _ _ _ _ _ _ Hh Hc). simpl.
      unfold column_at. rewrite Hh. repeat split; auto; discriminate.
Qed.

End IndicatorEffects.

(** ** Lemmas on the loops of the screener *)

Lemma bind_inv {A B : Type} (m : M A) (k : A -> M B) h h' b :
  bind m k h = (h', Ok b) ->
  exists h1 a, m h = (h1, Ok a) /\ k a h1 = (h', Ok b).
Proof.
  unfold bind. destruct (m h) as [h1 [a|e]]; [eauto | discriminate].
Qed.

Lemma for_each_app {A S : Type} (xs ys : list A) (body : S -> A -> M S) s h :
  for_each (xs ++ ys) body s h
  = match for_each xs body s h with
    | (h', Ok s') => for_each ys body s' h'
    | (h', Raise e) => (h', Raise e)
    end.
Proof.
  revert s h. induction xs as [|x xs IH]; intros s h; simpl; [reflexivity|].
  unfold bind. destruct (body s x h) as [h1 [s1|e]]; [apply IH | reflexivity].
Qed.

Lemma for_each_raise_at {A S : Type} (pre post : list A) x
    (body : S -> A -> M S) s h h1 s1 h2 e :
  for_each pre body s h = (h1, Ok s1) ->
  body s1 x h1 = (h2, Raise e) ->
  for_each (pre ++ x :: post) body s h = (h2, Raise e).
Proof.
  intros Hpre Hx. rewrite for_each_app, Hpre. simpl.
  unfold bind. now rewrite Hx.
Qed.

Lemma for_each_invariant {A S : Type} (P : S -> Prop) (xs : list A)
    (body : S -> A -> M S) :
  (forall x s h h' s', x ∈ xs -> P s -> body s x h = (h', Ok s') -> P s') ->
  forall s h h' s', P s -> for_each xs body s h = (h', Ok s') -> P s'.
Proof.
  induction xs as [|x xs IH]; intros Hbody s h h' s' Hs Hrun; simpl in Hrun.
  - now injection Hrun as _ <-.
  - apply bind_inv in Hrun as (h1 & s1 & H1 & H2).
    apply (IH (fun y t g g' t' Hy =>
                 Hbody y t g g' t' (list_elem_of_further _ _ _ Hy))
              s1 h1 h' s'); [|assumption].
    apply (Hbody x s h h1 s1); [left | assumption | assumption].
Qed.

Lemma store_insert_last (h : store) (df df' : DataFrame) :
  <[length h := df']> (h ++ [df]) = h ++ [df'].
Proof.
  replace (length h) with (length h + 0) by lia. now rewrite insert_app_r.
Qed.

Lemma apply_indicator_call_raise stock_symbol data all_signals ind h h' e :
  call ind data h = (h', Raise e) ->
  apply_indicator stock_symbol (data, all_signals) ind h = (h', Raise e).
Proof. intros H. unfold apply_indicator. now apply bind_raise. Qed.

Lemma elem_of_select {A : Type} (flags : list bool) (xs : list A) x :
  x ∈ select flags xs <->
  exists i, flags !! i = Some true /\ xs !! i = Some x.
Proof.
  revert xs. induction flags as [|b flags IH]; intros xs; simpl.
  - split; [intros H; now apply elem_of_nil in H|].
    intros (i & Hi & _). now rewrite lookup_nil in Hi.
  - destruct xs as [|y xs].
    + split; [intros H; now apply elem_of_nil in H|].
      intros (i & _ & Hi). now rewrite lookup_nil in Hi.
    + destruct b.
      * rewrite elem_of_cons, IH. split.
        -- intros [->|(i & Hi & Hx)]; [now exists 0 | now exists (S i)].
        -- intros ([|i] & Hi & Hx); simpl in Hi, Hx.
           ++ left. congruence.
           ++ right. now exists i.
      * rewrite IH. split.
        -- intros (i & Hi & Hx). now exists (S i).
        -- intros ([|i] & Hi & Hx); simpl in Hi, Hx; [discriminate|].
           now exists i.
Qed.

Lemma length_select {A : Type} (flags : list bool) (xs : list A) :
  length flags = length xs ->
  length (select flags xs) = length (List.filter id flags).
Proof.
  revert xs. induction flags as [|b flags IH]; intros [|x xs] Hlen;
    simpl in *; try discriminate; [reflexivity|].
  injection Hlen as Hlen. destruct b; simpl; now rewrite IH.
Qed.

Lemma signals_of_typed (df : DataFrame) stock_symbol ind recs r :
  signals_of df stock_symbol ind = Ok recs -> r ∈ recs ->
  signal_type r = signal_type_of (__name__ ind) /\ symbol r = stock_symbol.
Proof.
  unfold signals_of. destruct (mask_of df "Buy Signal"); [|discriminate].
  destruct (df !! "Datetime"); [|discriminate].
  intros [= <-] Hr. apply list_elem_of_fmap in Hr as (t & -> & _). now split.
Qed.

Lemma apply_indicator_typed indicators stock_symbol data all_signals ind
    h h' st :
  ind ∈ indicators -> typed_by indicators all_signals ->
  apply_indicator stock_symbol (data, all_signals) ind h = (h', Ok st) ->
  typed_by indicators st.2.
Proof.
  intros Hind Hty Hrun. unfold apply_indicator in Hrun.
  apply bind_inv in Hrun as (h1 & res & _ & Hrun).
  apply bind_inv in Hrun as (h2 & df & _ & Hrun).
  case_decide.
  - injection Hrun as _ <-. exact Hty.
  - apply bind_inv in Hrun as (h3 & signals & Hsig & Hrun).
    injection Hrun as _ <-. simpl.
    unfold lift in Hsig. injection Hsig as _ Hsig.
    intros l r Hl Hr. apply elem_of_app in Hl as [Hl|Hl].
    + now apply (Hty l r).
    + apply list_elem_of_singleton in Hl as ->. exists ind. split; [done|].
      now apply (signals_of_typed _ _ _ _ _ Hsig).
Qed.

Lemma apply_indicator_grows stock_symbol data all_signals ind h h' st :
  apply_indicator stock_symbol (data, all_signals) ind h = (h', Ok st) ->
  exists l, st.2 = all_signals ++ l /\ length l <= 1.
Proof.
  intros Hrun. unfold apply_indicator in Hrun.
  apply bind_inv in Hrun as (h1 & res & _ & Hrun).
  apply bind_inv in Hrun as (h2 & df & _ & Hrun).
  case_decide.
  - injection Hrun as _ <-. exists []. simpl. rewrite app_nil_r.
    split; [reflexivity | lia].
  - apply bind_inv in Hrun as (h3 & signals & _ & Hrun).
    injection Hrun as _ <-. exists [signals]. simpl. split; [reflexivity | lia].
Qed.

Lemma for_each_apply_indicator_grows stock_symbol indicators st h h' st' :
  for_each indicators (apply_indicator stock_symbol) st h = (h', Ok st') ->
  exists l, st'.2 = st.2 ++ l /\ length l <= length indicators.
Proof.
  revert st h. induction indicators as [|ind indicators IH];
    intros [data sigs] h Hrun; simpl in Hrun.
  - injection Hrun as _ <-. exists []. simpl. rewrite app_nil_r.
    split; [reflexivity | lia].
  - apply bind_inv in Hrun as (h1 & [data1 sigs1] & Hone & Hrest).
    apply apply_indicator_grows in Hone as (l1 & Hl1 & Hn1).
    apply IH in Hrest as (l2 & Hl2 & Hn2). simpl in *. subst sigs1.
    exists (l1 ++ l2). rewrite Hl2, <- app_assoc, length_app.
    split; [reflexivity | lia].
Qed.

Lemma apply_indicator_batch stock_symbol data all_signals ind (h h' : store)
    res (df : DataFrame) mask c :
  call ind data h = (h', Ok res) ->
  h' !! (match res with RTuple d _ => d | RFrame d => d end) = Some df ->
  df !! "Buy Signal" = Some (Bools mask) -> df !! "Datetime" = Some c ->
  apply_indicator stock_symbol (data, all_signals) ind h
  = (h', Ok (match res with RTuple d _ => d | RFrame d => d end,
             all_signals
               ++ [(fun t => {| Datetime := t; symbol := stock_symbol;
                                signal_type := signal_type_of (__name__ ind) |})
                     <$> select mask (cells c)])).
Proof.
  intros Hcall Hh' Hm Hd. unfold apply_indicator.
  rewrite (bind_ok _ _ _ _ _ Hcall).
  rewrite (bind_ok _ _ _ _ _ (deref_ok _ _ _ Hh')).
  rewrite decide_False by congruence.
  unfold bind, lift, signals_of, mask_of. now rewrite Hm, Hd.
Qed.

Section ScreenerRuns.

Variable to_datetime : column -> result column.

Lemma screen_file_skip indicators all_signals file_name content h :
  endswith file_name ".csv" = false ->
  screen_file to_datetime indicators all_signals (file_name, content) h
  = (h, Ok all_signals).
Proof. intros H. unfold screen_file. now rewrite H. Qed.

Lemma screen_file_no_datetime indicators all_signals file_name
    (content : DataFrame) h :
  endswith file_name ".csv" = true -> content !! "Datetime" = None ->
  screen_file to_datetime indicators all_signals (file_name, content) h
  = (h ++ [content],
     Raise (ValueError ("The file " ++ file_name
                          ++ " must contain a 'Datetime' column."))).
Proof.
  intros Hcsv Hd. unfold screen_file. rewrite Hcsv.
  erewrite bind_ok by reflexivity.
  erewrite bind_ok
    by (apply deref_ok; apply list_lookup_middle; reflexivity).
  now rewrite decide_True by assumption.
Qed.

Lemma screen_file_to_datetime_raise indicators all_signals file_name
    (content : DataFrame) c e h :
  endswith file_name ".csv" = true -> content !! "Datetime" = Some c ->
  to_datetime c = Raise e ->
  screen_file to_datetime indicators all_signals (file_name, content) h
  = (h ++ [content], Raise e).
Proof.
  intros Hcsv Hd He. unfold screen_file. rewrite Hcsv.
  assert (Hl : (h ++ [content]) !! length h = Some content)
    by (apply list_lookup_middle; reflexivity).
  erewrite bind_ok by reflexivity.
  erewrite bind_ok by (apply deref_ok; exact Hl).
  rewrite decide_False by congruence.
  erewrite bind_ok by (eapply getcol_ok; eassumption).
  apply bind_raise. unfold lift. now rewrite He.
Qed.

Lemma screen_file_csv indicators all_signals file_name
    (content : DataFrame) c c' h :
  endswith file_name ".csv" = true -> content !! "Datetime" = Some c ->
  to_datetime c = Ok c' ->
  screen_file to_datetime indicators all_signals (file_name, content) h
  = match for_each indicators (apply_indicator (splitext_root file_name))
            (length h, all_signals)
            (h ++ [<["Datetime" := c']> content]) with
    | (h', Ok st) => (h', Ok st.2)
    | (h', Raise e) => (h', Raise e)
    end.
Proof.
  intros Hcsv Hd He. unfold screen_file. rewrite Hcsv.
  assert (Hl : (h ++ [content]) !! length h = Some content)
    by (apply list_lookup_middle; reflexivity).
  erewrite bind_ok by reflexivity.
  erewrite bind_ok by (apply deref_ok; exact Hl).
  rewrite decide_False by congruence.
  erewrite bind_ok by (eapply getcol_ok; eassumption).
  erewrite bind_ok by (unfold lift; rewrite He; reflexivity).
  erewrite bind_ok by (apply setcol_ok; exact Hl).
  rewrite store_insert_last. unfold bind.
  now destruct (for_each _ _ _ _) as [h' [st|e]].
Qed.

Lemma screen_file_typed indicators all_signals file h h' all_signals' :
  typed_by indicators all_signals ->
  screen_file to_datetime indicators all_signals file h
  = (h', Ok all_signals') ->
  typed_by indicators all_signals'.
Proof.
  intros Hty Hrun. destruct file as [file_name content].
  destruct (endswith file_name ".csv") eqn:Hcsv.
  - destruct (content !! "Datetime") as [c|] eqn:Hd.
    + destruct (to_datetime c) as [c'|e] eqn:He.
      * rewrite (screen_file_csv _ _ _ _ _ _ _ Hcsv Hd He) in Hrun.
        destruct (for_each _ _ _ _) as [h1 [st|e]] eqn:Hloop;
          [|discriminate].
        injection Hrun as _ <-.
        eapply (for_each_invariant (fun st => typed_by indicators st.2));
          [ | | exact Hloop]; [|exact Hty].
        intros ind [data sigs] g g' st' Hin Hs Hbody.
        now apply (apply_indicator_typed _ _ _ _ _ _ _ _ Hin Hs Hbody).
      * now rewrite (screen_file_to_datetime_raise _ _ _ _ _ _ _ Hcsv Hd He)
          in Hrun.
    + now rewrite (screen_file_no_datetime _ _ _ _ _ Hcsv Hd) in Hrun.
  - rewrite (screen_file_skip _ _ _ _ _ Hcsv) in Hrun.
    now injection Hrun as _ <-.
Qed.

Lemma screen_file_grows indicators all_signals file h h' all_signals' :
  screen_file to_datetime indicators all_signals file h
  = (h', Ok all_signals') ->
  exists l,
    all_signals' = all_signals ++ l /\
    length l <= (if endswith file.1 ".csv" then length indicators else 0).
Proof.
  intros Hrun. destruct file as [file_name content]. simpl.
  destruct (endswith file_name ".csv") eqn:Hcsv.
  - destruct (content !! "Datetime") as [c|] eqn:Hd.
    + destruct (to_datetime c) as [c'|e] eqn:He.
      * rewrite (screen_file_csv _ _ _ _ _ _ _ Hcsv Hd He) in Hrun.
        destruct (for_each _ _ _ _) as [h1 [st|e]] eqn:Hloop;
          [|discriminate].
        injection Hrun as _ <-.
        now apply for_each_apply_indicator_grows in Hloop.
      * now rewrite (screen_file_to_datetime_raise _ _ _ _ _ _ _
                       Hcsv Hd He) in Hrun.
    + now rewrite (screen_file_no_datetime _ _ _ _ _ Hcsv Hd) in Hrun.
  - rewrite (screen_file_skip _ _ _ _ _ Hcsv) in Hrun.
    injection Hrun as _ <-. exists []. simpl. rewrite app_nil_r.
    split; [reflexivity | lia].
Qed.

Lemma for_each_screen_file_grows stock_dir indicators all_signals h h'
    all_signals' :
  for_each stock_dir (screen_file to_datetime indicators) all_signals h
  = (h', Ok all_signals') ->
  exists l, all_signals' = all_signals ++ l.
Proof.
  revert all_signals h. induction stock_dir as [|file rest IH];
    intros all_signals h Hrun; cbn [for_each] in Hrun.
  - injection Hrun as _ <-. exists []. now rewrite app_nil_r.
  - apply bind_inv in Hrun as (h1 & acc1 & Hfile & Hrest).
    apply screen_file_grows in Hfile as (l1 & -> & _).
    apply IH in Hrest as (l2 & ->).
    exists (l1 ++ l2). now rewrite app_assoc.
Qed.

Lemma collect_signals_typed stock_dir indicators h h' all_signals :
  collect_signals to_datetime stock_dir indicators h = (h', Ok all_signals) ->
  typed_by indicators all_signals.
Proof.
  intros Hrun. unfold collect_signals in Hrun.
  eapply (for_each_invariant (typed_by indicators)); [ | | exact Hrun].
  - intros file s g g' s' _ Hs Hbody.
    now apply (screen_file_typed _ _ _ _ _ _ Hs Hbody).
  - intros l r Hl. now apply elem_of_nil in Hl.
Qed.

End ScreenerRuns.

(** ** Lemmas on the lines of a file *)

Lemma occurrences_app x (a b : list line) :
  occurrences x (a ++ b) = occurrences x a + occurrences x b.
Proof. unfold occurrences. now rewrite filter_app, length_app. Qed.

Lemma occurrences_header_rows names (recs : list SignalRecord) :
  occurrences (Header names) (Row <$> recs) = 0.
Proof.
  unfold occurrences. induction recs as [|r recs IH]; [reflexivity|].
  rewrite fmap_cons, filter_cons_False by discriminate. exact IH.
Qed.

Lemma occurrences_row_header r names :
  occurrences (Row r) [Header names] = 0.
Proof. unfold occurrences. now rewrite filter_cons_False by discriminate. Qed.

Lemma occurrences_header_header names :
  occurrences (Header names) [Header names] = 1.
Proof. unfold occurrences. now rewrite filter_cons_True by reflexivity. Qed.

(** ** Correctness of the decision procedure *)

Lemma increasingb_correct ts :
  increasingb ts = true -> strictly_increasing ts.
Proof.
  induction ts as [|a ts IH]; intros H.
  - split; intros; now rewrite lookup_nil in *.
  - destruct a as [|a]; [discriminate|].
    assert (Htail : increasingb ts = true /\
                    forall y, ts !! 0 = Some (Timestamp y) -> (a < y)%Z).
    { simpl in H. destruct ts as [|[|b0] ts']; try discriminate.
      - split; [reflexivity|]. intros y Hy. now rewrite lookup_nil in Hy.
      - apply andb_true_iff in H as [H1 H2]. split; [exact H2|].
        intros y [= <-]. now apply Z.ltb_lt. }
    destruct Htail as [Hts Hhd]. destruct (IH Hts) as [IHd IHi].
    assert (Hall : forall n y, ts !! n = Some (Timestamp y) -> (a < y)%Z).
    { induction n as [|n IHn]; intros y Hy; [now apply Hhd|].
      assert (Hn : is_Some (ts !! n))
        by (apply lookup_lt_is_Some; apply lookup_lt_Some in Hy; lia).
      destruct Hn as [[|c] Hc]; [now elim (IHd n NaT)|].
      assert ((c < y)%Z) by (apply (IHi n (S n)); [lia|done|done]).
      specialize (IHn c Hc). lia. }
    split.
    + intros [|i] b Hb; simpl in Hb;
        [now injection Hb as <- | now apply (IHd i)].
    + intros [|i] [|k] x y Hik Hx Hy; try lia; simpl in Hx, Hy.
      * injection Hx as <-. now apply (Hall k).
      * apply (IHi i k); [lia|done|done].
Qed.

(** ** The screening run and the signal log *)

Section ScreenerClaims.

Variable to_datetime : column -> result column.

(** C3, as the code has it.  A failure is not isolated.  An exception
    raised by the call of one indicator ends the loop over the indicators;
    an exception raised while a file is processed ends the loop over the
    files: the files listed after it are not read, the signals collected
    from the files before it are dropped, and the run ends with that
    exception without writing anything. *)
Theorem failure_aborts_the_run :
  (forall stock_symbol ipre ind ipost data all_signals h h1 st1 h2 e,
     for_each ipre (apply_indicator stock_symbol) (data, all_signals) h
     = (h1, Ok st1) ->
     call ind st1.1 h1 = (h2, Raise e) ->
     for_each (ipre ++ ind :: ipost) (apply_indicator stock_symbol)
       (data, all_signals) h
     = (h2, Raise e)) /\
  (forall indicators all_signals file_name (content : DataFrame) c c'
          h h' e,
     endswith file_name ".csv" = true ->
     content !! "Datetime" = Some c -> to_datetime c = Ok c' ->
     for_each indicators (apply_indicator (splitext_root file_name))
       (length h, all_signals) (h ++ [<["Datetime" := c']> content])
     = (h', Raise e) ->
     screen_file to_datetime indicators all_signals (file_name, content) h
     = (h', Raise e)) /\
  (forall pre file post indicators output_file h fs h1 all_signals h2 e,
     collect_signals to_datetime pre indicators h = (h1, Ok all_signals) ->
     screen_file to_datetime indicators all_signals file h1
     = (h2, Raise e) ->
     screen_by_indicators to_datetime (pre ++ file :: post) indicators
       output_file h fs
     = (h2, fs, Raise e)) /\
  (forall stock_dir indicators output_file h fs e,
     (screen_by_indicators to_datetime stock_dir indicators output_file
        h fs).2 = Raise e ->
     (screen_by_indicators to_datetime stock_dir indicators output_file
        h fs).1.2 = fs).
Proof.
  split; [|split; [|split]].
  - intros sym ipre ind ipost data sigs h h1 [data1 sigs1] h2 e Hpre Hcall.
    apply (for_each_raise_at _ _ _ _ _ _ _ _ _ _ Hpre).
    now apply apply_indicator_call_raise.
  - intros inds sigs name content c c' h h' e Hcsv Hd He Hloop.
    rewrite (screen_file_csv _ _ _ _ _ _ _ _ Hcsv Hd He). now rewrite Hloop.
  - intros pre file post inds out h fs h1 sigs h2 e Hpre Hfile.
    unfold screen_by_indicators, collect_signals.
    unfold collect_signals in Hpre.
    now rewrite (for_each_raise_at _ _ _ _ _ _ _ _ _ _ Hpre Hfile).
  - intros dir inds out h fs e. unfold screen_by_indicators.
    destruct (collect_signals _ _ _ _) as [h' [[|s sigs]|e']]; simpl;
      [discriminate | discriminate | reflexivity].
Qed.

(** C4.  When the loops have collected at least one batch of signals, the
    run writes them to [output_file]: after a header line when the file
    did not exist, at the end of the file as it was when it existed; no
    line that is already there is looked at.  So two runs over the same
    listing and from the same object store (every execution of the
    program starts with an empty one), the first one with no output file,
    leave a file that holds the header once and every record twice as
    many times as one run yields it. *)
Theorem sink_appends_without_deduplication stock_dir indicators output_file
    h (fs : gmap string (list line)) h' signals all_signals :
  collect_signals to_datetime stock_dir indicators h
  = (h', Ok (signals :: all_signals)) ->
  let rows := Row <$> concat (signals :: all_signals) in
  let header := Header ["Datetime"; "symbol"; "signal type"] in
  let run := screen_by_indicators to_datetime stock_dir indicators
               output_file h in
  (fs !! output_file = None ->
   run fs = (h', <[output_file := header :: rows]> fs, Ok tt)) /\
  (forall old, fs !! output_file = Some old ->
   run fs = (h', <[output_file := old ++ rows]> fs, Ok tt)) /\
  (fs !! output_file = None ->
   exists out,
     (run (run fs).1.2).1.2 !! output_file = Some out /\
     out = header :: rows ++ rows /\
     occurrences header out = 1 /\
     forall r, occurrences (Row r) out = 2 * occurrences (Row r) rows).
Proof.
  intros Hcollect rows header run.
  assert (Hnew : forall fs0 : gmap string (list line),
             fs0 !! output_file = None ->
             run fs0 = (h', <[output_file := header :: rows]> fs0, Ok tt)).
  { intros fs0 Hnone. unfold run, screen_by_indicators.
    rewrite Hcollect. unfold to_csv, path_exists. rewrite Hnone.
    rewrite bool_decide_eq_false_2 by (intros [? ?]; discriminate).
    reflexivity. }
  assert (Hold : forall (fs0 : gmap string (list line)) old,
             fs0 !! output_file = Some old ->
             run fs0 = (h', <[output_file := old ++ rows]> fs0, Ok tt)).
  { intros fs0 old Hsome. unfold run, screen_by_indicators.
    rewrite Hcollect. unfold to_csv, path_exists. rewrite Hsome.
    rewrite bool_decide_eq_true_2 by eauto.
    reflexivity. }
  split; [apply Hnew|]. split; [apply Hold|].
  intros Hnone. exists (header :: rows ++ rows).
  rewrite (Hnew fs Hnone). simpl.
  rewrite (Hold _ (header :: rows)) by apply lookup_insert_eq. simpl.
  split; [apply lookup_insert_eq|]. split; [reflexivity|].
  split.
  - change (header :: rows ++ rows) with ([header] ++ rows ++ rows).
    rewrite !occurrences_app. unfold header.
    rewrite occurrences_header_header. unfold rows.
    now rewrite occurrences_header_rows.
  - intros r.
    change (header :: rows ++ rows) with ([header] ++ rows ++ rows).
    rewrite !occurrences_app. unfold header.
    rewrite occurrences_row_header. lia.
Qed.

(** C9.  The record written for a flagged bar carries the name of the
    indicator function that flagged it, with the occurrences of
    [calculate_] taken out and the rest in upper case (names are ASCII
    text).  In the loop over the indicators, the call of an indicator
    adds, right after the batches of the indicators before it, one batch
    made from the table the call returned: one record for each flagged
    bar, with the symbol of the file and the type made from the name of
    that indicator.  In a run that returns, the record of each bar an
    indicator flagged in a [.csv] file is in the output file, with the
    timestamp of the bar, the symbol of the file and the type of that
    indicator; and every record the run adds to the file carries the type
    of one of the indicators.  The names [calculate_macd] and
    [calculate_rsi] give [MACD] and [RSI], and a leading [calculate_] is
    taken off every name. *)
Theorem signal_type_from_indicator_name :
  (forall stock_symbol ipre ind ipost data all_signals h h1 data1 signals1
          h2 res (df : DataFrame) mask c h' st',
     isascii (__name__ ind) = true ->
     for_each ipre (apply_indicator stock_symbol) (data, all_signals) h
     = (h1, Ok (data1, signals1)) ->
     call ind data1 h1 = (h2, Ok res) ->
     h2 !! (match res with RTuple d _ => d | RFrame d => d end) = Some df ->
     df !! "Buy Signal" = Some (Bools mask) -> df !! "Datetime" = Some c ->
     for_each (ipre ++ ind :: ipost) (apply_indicator stock_symbol)
       (data, all_signals) h
     = (h', Ok st') ->
     exists later,
       st'.2
       = signals1
           ++ ((fun t =>
                  {| Datetime := t; symbol := stock_symbol;
                     signal_type :=
                       upper (replace "calculate_" EmptyString
                                (__name__ ind)) |})
                 <$> select mask (cells c)) :: later) /\
  (forall fpre file_name (content : DataFrame) fpost ipre ind ipost
          output_file h fs h0 signals0 c0 c0' h1 data1 signals1 h2 res
          (df : DataFrame) mask c i t,
     isascii (__name__ ind) = true ->
     endswith file_name ".csv" = true ->
     collect_signals to_datetime fpre (ipre ++ ind :: ipost) h
     = (h0, Ok signals0) ->
     content !! "Datetime" = Some c0 -> to_datetime c0 = Ok c0' ->
     for_each ipre (apply_indicator (splitext_root file_name))
       (length h0, signals0) (h0 ++ [<["Datetime" := c0']> content])
     = (h1, Ok (data1, signals1)) ->
     call ind data1 h1 = (h2, Ok res) ->
     h2 !! (match res with RTuple d _ => d | RFrame d => d end) = Some df ->
     df !! "Buy Signal" = Some (Bools mask) -> df !! "Datetime" = Some c ->
     mask !! i = Some true -> cells c !! i = Some t ->
     (screen_by_indicators to_datetime
        (fpre ++ (file_name, content) :: fpost) (ipre ++ ind :: ipost)
        output_file h fs).2 = Ok tt ->
     Row {| Datetime := t; symbol := splitext_root file_name;
            signal_type :=
              upper (replace "calculate_" EmptyString (__name__ ind)) |}
     ∈ default []
         ((screen_by_indicators to_datetime
             (fpre ++ (file_name, content) :: fpost)
             (ipre ++ ind :: ipost) output_file h fs).1.2
            !! output_file)) /\
  (forall stock_dir indicators output_file h fs r,
     forallb (fun ind => isascii (__name__ ind)) indicators = true ->
     Row r ∈ default []
       ((screen_by_indicators to_datetime stock_dir indicators output_file
           h fs).1.2 !! output_file) ->
     Row r ∈ default [] (fs !! output_file) \/
     exists ind, ind ∈ indicators /\
                 signal_type r
                 = upper (replace "calculate_" EmptyString (__name__ ind))) /\
  (forall (df : DataFrame) stock_symbol ind recs r,
     isascii (__name__ ind) = true ->
     signals_of df stock_symbol ind = Ok recs -> r ∈ recs ->
     signal_type r = upper (replace "calculate_" EmptyString (__name__ ind)) /\
     symbol r = stock_symbol) /\
  signal_type_of "calculate_macd" = "MACD" /\
  signal_type_of "calculate_rsi" = "RSI" /\
  (forall rest,
     signal_type_of ("calculate_" ++ rest)
     = upper (replace "calculate_" EmptyString rest)).
Proof.
  assert (Hloop : forall stock_symbol ipre ind ipost data all_signals h h1
                         data1 signals1 h2 res (df : DataFrame) mask c
                         h' st',
             for_each ipre (apply_indicator stock_symbol)
               (data, all_signals) h
             = (h1, Ok (data1, signals1)) ->
             call ind data1 h1 = (h2, Ok res) ->
             h2 !! (match res with RTuple d _ => d | RFrame d => d end)
             = Some df ->
             df !! "Buy Signal" = Some (Bools mask) ->
             df !! "Datetime" = Some c ->
             for_each (ipre ++ ind :: ipost) (apply_indicator stock_symbol)
               (data, all_signals) h
             = (h', Ok st') ->
             exists later,
               st'.2
               = signals1
                   ++ ((fun t =>
                          {| Datetime := t; symbol := stock_symbol;
                             signal_type := signal_type_of (__name__ ind) |})
                         <$> select mask (cells c)) :: later).
  { intros sym ipre ind ipost data sigs h h1 data1 sigs1 h2 res df mask c
           h' st' Hpre Hcall Hdf Hm Hd Hrun.
    rewrite for_each_app, Hpre in Hrun. cbn [for_each] in Hrun.
    apply bind_inv in Hrun as (g & st & Hone & Hpost).
    rewrite (apply_indicator_batch _ _ _ _ _ _ _ _ _ _ Hcall Hdf Hm Hd)
      in Hone.
    injection Hone as <- <-.
    apply for_each_apply_indicator_grows in Hpost as (l & -> & _).
    exists l. cbn [snd]. now rewrite <- app_assoc. }
  split; [|split; [|split; [|split; [|split; [|split]]]]];
    try reflexivity.
  - intros sym ipre ind ipost data sigs h h1 data1 sigs1 h2 res df mask c
           h' st' _. apply Hloop.
  - intros fpre name content fpost ipre ind ipost out h fs h0 sigs0 c0 c0'
           h1 data1 signals1 h2 res df mask c i t _ Hcsv Hpre Hd0 He Hipre
           Hcall Hdf Hm Hd Hi Ht.
    unfold screen_by_indicators.
    destruct (collect_signals to_datetime (fpre ++ (name, content) :: fpost)
                (ipre ++ ind :: ipost) h) as [hc [all|e]] eqn:Hc;
      [|intros Hraise; discriminate Hraise].
    unfold collect_signals in Hc, Hpre.
    rewrite for_each_app, Hpre in Hc. cbn [for_each] in Hc.
    unfold bind in Hc.
    rewrite (screen_file_csv _ _ _ _ _ _ _ _ Hcsv Hd0 He) in Hc.
    destruct (for_each (ipre ++ ind :: ipost) _ _ _) as [g [st|e]]
      eqn:Hloop'; [|discriminate].
    destruct (Hloop _ _ _ _ _ _ _ _ _ _ _ _ _ _ _ _ _
                Hipre Hcall Hdf Hm Hd Hloop') as (later & Hst).
    apply for_each_screen_file_grows in Hc as (l & ->).
    rewrite Hst.
    remember ((fun t0 => {| Datetime := t0;
                            symbol := splitext_root name;
                            signal_type := signal_type_of (__name__ ind) |})
                <$> select mask (cells c)) as batch eqn:Hbatch.
    assert (Hin : {| Datetime := t; symbol := splitext_root name;
                     signal_type := signal_type_of (__name__ ind) |}
                  ∈ concat ((signals1 ++ batch :: later) ++ l)).
    { rewrite !concat_app, concat_cons.
      apply elem_of_app. left. apply elem_of_app. right.
      apply elem_of_app. left. subst batch.
      apply list_elem_of_fmap. exists t. split; [reflexivity|].
      apply elem_of_select. eauto. }
    destruct ((signals1 ++ batch :: later) ++ l) as [|s sigs] eqn:Hall.
    { now apply elem_of_nil in Hin. }
    intros _. cbv zeta. cbn [fst snd]. unfold to_csv.
    rewrite lookup_insert_eq. cbn [default].
    apply elem_of_app. right. apply elem_of_app. right.
    apply list_elem_of_fmap. eexists. split; [reflexivity|exact Hin].
  - intros dir inds out h fs r _. unfold screen_by_indicators.
    destruct (collect_signals _ _ _ _) as [h' [[|s sigs]|e]] eqn:Hcollect;
      [simpl; auto | | simpl; auto].
    cbv zeta. remember (concat (s :: sigs)) as recs eqn:Hrecs.
    unfold to_csv. simpl. rewrite lookup_insert_eq. simpl.
    intros Hr. subst recs. apply elem_of_app in Hr as [Hr|Hr]; [now left|].
    apply elem_of_app in Hr as [Hr|Hr].
    { destruct (negb _); [|now apply elem_of_nil in Hr].
      apply list_elem_of_singleton in Hr. discriminate. }
    right. apply list_elem_of_fmap in Hr as (r' & [= <-] & Hr).
    apply list_elem_of_In, in_concat in Hr as (l & Hl & Hr).
    apply list_elem_of_In in Hl, Hr.
    apply (collect_signals_typed _ _ _ _ _ _ Hcollect l r Hl Hr).
  - intros df sym ind recs r _ Hsig Hr.
    apply (signals_of_typed _ _ _ _ _ Hsig Hr).
  - intros rest. unfold signal_type_of, replace. simpl.
    now destruct rest.
Qed.

End ScreenerClaims.

(** C5.  A table without the ['Close'] column makes [calculate_macd] and
    [calculate_rsi] raise [ValueError] (the exception the source uses for an
    invalid input) at their first statement: TA-Lib is not called and the
    table is not touched.  A [.csv] file without the ['Datetime'] column
    makes its screening raise [ValueError], and with it the run, once the
    files listed before it have been processed. *)
Theorem missing_column_raises_ValueError :
  (forall talib_MACD MACD_CONFIG (h : store) data (df : DataFrame),
     h !! data = Some df -> df !! "Close" = None ->
     calculate_macd talib_MACD MACD_CONFIG data h
     = (h,
        Raise (ValueError "The input data must contain a 'Close' column."))) /\
  (forall talib_RSI RSI_CONFIG (h : store) data res (df : DataFrame),
     h !! data = Some df -> df !! "Close" = None ->
     calculate_rsi talib_RSI RSI_CONFIG data res h
     = (h,
        Raise (ValueError "The input data must contain a 'Close' column."))) /\
  (forall to_datetime indicators all_signals file_name (content : DataFrame) h,
     endswith file_name ".csv" = true -> content !! "Datetime" = None ->
     screen_file to_datetime indicators all_signals (file_name, content) h
     = (h ++ [content],
        Raise (ValueError ("The file " ++ file_name
                             ++ " must contain a 'Datetime' column.")))) /\
  (forall to_datetime pre file_name (content : DataFrame) post indicators
          output_file h fs h1 all_signals,
     collect_signals to_datetime pre indicators h = (h1, Ok all_signals) ->
     endswith file_name ".csv" = true -> content !! "Datetime" = None ->
     screen_by_indicators to_datetime (pre ++ (file_name, content) :: post)
       indicators output_file h fs
     = (h1 ++ [content], fs,
        Raise (ValueError ("The file " ++ file_name
                             ++ " must contain a 'Datetime' column.")))).
Proof.
  split; [|split; [|split]].
  - intros. now apply calculate_macd_no_close with df.
  - intros. now apply calculate_rsi_no_close with df.
  - intros. now apply screen_file_no_datetime.
  - intros td pre name content post inds out h fs h1 sigs Hpre Hcsv Hd.
    unfold screen_by_indicators, collect_signals.
    unfold collect_signals in Hpre.
    now rewrite (for_each_raise_at _ _ _ _ _ _ _ _ _ _ Hpre
                   (screen_file_no_datetime td inds sigs name content h1
                      Hcsv Hd)).
Qed.

(** ** The statements on the sample data *)

(** C1 on the five sample bars. *)
Lemma macd_flag_is_upward_cross_witness :
  exists flags,
    column_at
      (calculate_macd Sample.talib_MACD Sample.MACD_CONFIG 0 [Sample.bars]).1
      0 "Buy Signal" = Some (Bools flags) /\
    length flags = length Sample.closes /\
    (forall i, flags !! i = Some true
               <-> upward_cross Sample.closes (shift1 Sample.closes) i) /\
    (forall i c d,
       Sample.closes !! i = Some c -> shift1 Sample.closes !! i = Some d ->
       ext_le c d -> flags !! i <> Some true).
Proof.
  apply (macd_flag_is_upward_cross Sample.talib_MACD Sample.MACD_CONFIG
           [Sample.bars] 0 Sample.bars (Floats Sample.closes)
           Sample.closes (shift1 Sample.closes)
           (zip_with Sample.float_sub Sample.closes (shift1 Sample.closes)));
    reflexivity.
Defined.

(** C2 on the five sample bars, with the line at 30. *)
Lemma rsi_flag_is_downward_cross_witness :
  exists flags,
    column_at
      (calculate_rsi Sample.talib_RSI Sample.RSI_CONFIG 0 "1D"
         [Sample.bars]).1 0 "Buy Signal" = Some (Bools flags) /\
    length flags = length Sample.closes /\
    (forall i, flags !! i = Some true
               <-> downward_cross Sample.closes 30 i) /\
    (forall d r,
       1 <= d -> d < r ->
       (exists p, Sample.closes !! (d - 1) = Some p /\ ext_le (Fin 30) p) ->
       (forall j, d <= j < r ->
          exists v, Sample.closes !! j = Some v /\ ext_lt v (Fin 30)) ->
       (exists v, Sample.closes !! r = Some v /\ ext_le (Fin 30) v) ->
       flags !! d = Some true /\
       forall j, d < j <= r -> flags !! j = Some false).
Proof.
  apply (rsi_flag_is_downward_cross Sample.talib_RSI Sample.RSI_CONFIG
           [Sample.bars] 0 "1D" Sample.bars (Floats Sample.closes)
           Sample.closes);
    reflexivity.
Defined.

(** C8 on the five sample bars. *)
Lemma last_signal_is_last_flagged_bar_witness :
  (exists j t,
     last_flagged (cross_up Sample.closes (shift1 Sample.closes)) j /\
     Sample.stamps !! j = Some (Timestamp t) /\
     (calculate_macd Sample.talib_MACD Sample.MACD_CONFIG 0 [Sample.bars]).2
     = Ok (0, Some (STime (Timestamp t)))) /\
  (exists j t,
     last_flagged (rsi_buy Sample.closes 30) j /\
     Sample.stamps !! j = Some (Timestamp t) /\
     (calculate_rsi Sample.talib_RSI Sample.RSI_CONFIG 0 "1D" [Sample.bars]).2
     = Ok (0, Some (STime (Timestamp t)))).
Proof.
  destruct (last_signal_is_last_flagged_bar Sample.talib_MACD Sample.talib_RSI
              Sample.MACD_CONFIG Sample.RSI_CONFIG [Sample.bars] 0 Sample.bars
              (Floats Sample.closes) Sample.stamps)
    as [Hmacd Hrsi];
    [reflexivity | reflexivity | reflexivity
     | apply increasingb_correct; reflexivity | ].
  split.
  - apply (Hmacd Sample.closes (shift1 Sample.closes)
             (zip_with Sample.float_sub Sample.closes (shift1 Sample.closes)));
      [reflexivity | reflexivity | exists 2; reflexivity].
  - apply (Hrsi "1D" Sample.closes);
      [reflexivity | reflexivity | exists 1; reflexivity].
Defined.

(** C10 on the three bars of a rising price. *)
Lemma no_flag_gives_None_witness :
  (calculate_macd Sample.talib_MACD Sample.MACD_CONFIG 0
     [Sample.rising_bars]).2 = Ok (0, None) /\
  (calculate_rsi Sample.talib_RSI Sample.RSI_CONFIG 0 "1D"
     [Sample.rising_bars]).2 = Ok (0, None).
Proof.
  destruct (no_flag_gives_None Sample.talib_MACD Sample.talib_RSI
              Sample.MACD_CONFIG Sample.RSI_CONFIG [Sample.rising_bars] 0
              Sample.rising_bars (Floats Sample.rising))
    as [Hmacd Hrsi]; [reflexivity | reflexivity | ].
  split.
  - apply (Hmacd Sample.rising (shift1 Sample.rising)
             (zip_with Sample.float_sub Sample.rising (shift1 Sample.rising)));
      [reflexivity | apply existsb_id_false; reflexivity].
  - apply (Hrsi "1D" Sample.rising);
      [reflexivity | apply existsb_id_false; reflexivity].
Defined.

(** C6 on a table without close column, and with an engine that fails. *)
Lemma indicator_failure_cases_witness :
  (calculate_macd Sample.talib_MACD Sample.MACD_CONFIG 0 [Sample.no_close]).2
  = Raise (ValueError "The input data must contain a 'Close' column.") /\
  (calculate_rsi Sample.talib_RSI_failing Sample.RSI_CONFIG 0 "1D"
     [Sample.bars]).2
  = Raise (Exception "inputs are all NaN").
Proof.
  split.
  - apply (indicator_failure_cases Sample.talib_MACD Sample.talib_RSI
             Sample.MACD_CONFIG Sample.RSI_CONFIG [Sample.no_close] 0
             Sample.no_close); [reflexivity|].
    left. split; reflexivity.
  - apply (indicator_failure_cases Sample.talib_MACD Sample.talib_RSI_failing
             Sample.MACD_CONFIG Sample.RSI_CONFIG [Sample.bars] 0
             Sample.bars); [reflexivity|].
    right. left. exists (Floats Sample.closes). split; reflexivity.
Defined.

(** C7 on the five sample bars: the close and the timestamp columns are kept. *)
Lemma indicator_updates_table_in_place_witness :
  column_at
    (calculate_macd Sample.talib_MACD Sample.MACD_CONFIG 0 [Sample.bars]).1
    0 "Close" = Sample.bars !! "Close" /\
  column_at
    (calculate_rsi Sample.talib_RSI Sample.RSI_CONFIG 0 "1D" [Sample.bars]).1
    0 "Datetime" = Sample.bars !! "Datetime".
Proof.
  destruct (indicator_updates_table_in_place Sample.talib_MACD Sample.talib_RSI
              Sample.MACD_CONFIG Sample.RSI_CONFIG [Sample.bars] 0 Sample.bars)
    as [(_ & _ & Hmacd & _ & _) Hrsi]; [reflexivity|].
  destruct (Hrsi "1D") as (_ & _ & Hrsi' & _ & _).
  split; [apply Hmacd | apply Hrsi']; discriminate.
Defined.

(** C3 on a directory whose second file has no timestamp column. *)
Lemma failure_aborts_the_run_witness :
  (screen_by_indicators Sample.to_datetime Sample.stock_dir_bad
     Sample.indicators "signals.csv" [] ∅).1.2 = ∅ /\
  (screen_by_indicators Sample.to_datetime Sample.stock_dir_bad
     Sample.indicators "signals.csv" [] ∅).2
  = Raise (ValueError "The file BBB.csv must contain a 'Datetime' column.").
Proof.
  destruct (failure_aborts_the_run Sample.to_datetime) as (_ & _ & Hrun & _).
  change Sample.stock_dir_bad
    with ([("AAA.csv", Sample.csv_good)]
            ++ ("BBB.csv", Sample.csv_no_datetime)
            :: [("CCC.csv", Sample.csv_good)]).
  rewrite (Hrun [("AAA.csv", Sample.csv_good)]
             ("BBB.csv", Sample.csv_no_datetime)
             [("CCC.csv", Sample.csv_good)] Sample.indicators "signals.csv"
             [] ∅
             (collect_signals Sample.to_datetime
                [("AAA.csv", Sample.csv_good)] Sample.indicators []).1
             (Sample.batches_good "AAA")
             ((collect_signals Sample.to_datetime
                 [("AAA.csv", Sample.csv_good)] Sample.indicators []).1
                ++ [Sample.csv_no_datetime])
             (ValueError
                "The file BBB.csv must contain a 'Datetime' column."));
    [split; reflexivity | vm_compute; reflexivity | vm_compute; reflexivity].
Defined.

(** C4 on two runs over one file of five bars. *)
Lemma sink_appends_without_deduplication_witness :
  exists out,
    (screen_by_indicators Sample.to_datetime [("AAA.csv", Sample.csv_good)]
       Sample.indicators "signals.csv" []
       (screen_by_indicators Sample.to_datetime
          [("AAA.csv", Sample.csv_good)] Sample.indicators "signals.csv" []
          ∅).1.2).1.2 !! "signals.csv" = Some out /\
    out = Sample.header :: (Row <$> Sample.signals_good "AAA")
                        ++ (Row <$> Sample.signals_good "AAA") /\
    occurrences Sample.header out = 1.
Proof.
  destruct (sink_appends_without_deduplication Sample.to_datetime
              [("AAA.csv", Sample.csv_good)] Sample.indicators "signals.csv"
              [] ∅
              (collect_signals Sample.to_datetime
                 [("AAA.csv", Sample.csv_good)] Sample.indicators []).1
              [ {| Datetime := STime (Timestamp 300); symbol := "AAA";
                   signal_type := "MACD" |};
                {| Datetime := STime (Timestamp 500); symbol := "AAA";
                   signal_type := "MACD" |} ]
              [ [ {| Datetime := STime (Timestamp 200); symbol := "AAA";
                     signal_type := "RSI" |};
                  {| Datetime := STime (Timestamp 400); symbol := "AAA";
                     signal_type := "RSI" |} ] ])
    as (_ & _ & Htwice); [vm_compute; reflexivity|].
  destruct (Htwice eq_refl) as (out & Hout & Heq & Hheader & _).
  exists out. split; [exact Hout|]. split; [exact Heq | exact Hheader].
Defined.

(** C5 on the sample tables that lack a column. *)
Lemma missing_column_raises_ValueError_witness :
  calculate_macd Sample.talib_MACD Sample.MACD_CONFIG 0 [Sample.no_close]
  = ([Sample.no_close],
     Raise (ValueError "The input data must contain a 'Close' column.")) /\
  calculate_rsi Sample.talib_RSI Sample.RSI_CONFIG 0 "1D" [Sample.no_close]
  = ([Sample.no_close],
     Raise (ValueError "The input data must contain a 'Close' column.")) /\
  screen_file Sample.to_datetime Sample.indicators []
    ("BBB.csv", Sample.csv_no_datetime) []
  = ([Sample.csv_no_datetime],
     Raise (ValueError "The file BBB.csv must contain a 'Datetime' column.")) /\
  (screen_by_indicators Sample.to_datetime
     ([("notes.txt", ∅)] ++ ("BBB.csv", Sample.csv_no_datetime)
        :: [("AAA.csv", Sample.csv_good)])
     Sample.indicators "signals.csv" [] ∅).2
  = Raise (ValueError "The file BBB.csv must contain a 'Datetime' column.").
Proof.
  destruct missing_column_raises_ValueError as (Hmacd & Hrsi & Hfile & Hrun).
  split; [|split; [|split]].
  - apply (Hmacd Sample.talib_MACD Sample.MACD_CONFIG [Sample.no_close] 0
             Sample.no_close); reflexivity.
  - apply (Hrsi Sample.talib_RSI Sample.RSI_CONFIG [Sample.no_close] 0 "1D"
             Sample.no_close); reflexivity.
  - apply (Hfile Sample.to_datetime Sample.indicators [] "BBB.csv"
             Sample.csv_no_datetime []); reflexivity.
  - rewrite (Hrun Sample.to_datetime [("notes.txt", ∅)] "BBB.csv"
               Sample.csv_no_datetime [("AAA.csv", Sample.csv_good)]
               Sample.indicators "signals.csv" [] ∅ [] []);
      reflexivity.
Defined.

(** C9 on the sample run: the second bar, which [calculate_rsi] flags after
    [calculate_macd] has run on the table, is written with the type
    [RSI]. *)
Lemma signal_type_from_indicator_name_witness :
  Row {| Datetime := STime (Timestamp 200); symbol := "AAA";
         signal_type := "RSI" |}
  ∈ default []
      ((screen_by_indicators Sample.to_datetime
          [("notes.txt", ∅); ("AAA.csv", Sample.csv_good)]
          Sample.indicators "signals.csv" [] ∅).1.2 !! "signals.csv").
Proof.
  destruct (signal_type_from_indicator_name Sample.to_datetime)
    as (_ & Hrun & _).
  pose (macd := indicator_macd Sample.talib_MACD Sample.MACD_CONFIG).
  pose (rsi := indicator_rsi Sample.talib_RSI Sample.RSI_CONFIG).
  pose (s1 := for_each [macd] (apply_indicator "AAA") (0, []) [Sample.bars]).
  pose (s2 := call rsi 0 s1.1).
  apply (Hrun [("notes.txt", ∅)] "AAA.csv" Sample.csv_good [] [macd] rsi []
           "signals.csv" [] ∅ [] []
           (Floats (Sample.floats [100; 200; 300; 400; 500]%Z))
           (Datetimes Sample.stamps)
           s1.1 0 (take 1 (Sample.batches_good "AAA"))
           s2.1 (RTuple 0 (Some (STime (Timestamp 400))))
           (default ∅ (s2.1 !! 0))
           [false; true; false; true; false] (Datetimes Sample.stamps)
           1 (STime (Timestamp 200)));
    vm_compute; reflexivity.
Defined.

(** ** Where the code departs from the specification *)

(** C3 does not hold.  The second of three files has no ['Datetime'] column:
    the run ends with the exception and no output file is written, although
    the first file alone yields four records. *)
Lemma one_bad_file_blocks_every_symbol :
  (screen_by_indicators Sample.to_datetime Sample.stock_dir_bad
     Sample.indicators "signals.csv" [] ∅).2
  = Raise (ValueError "The file BBB.csv must contain a 'Datetime' column.") /\
  (screen_by_indicators Sample.to_datetime Sample.stock_dir_bad
     Sample.indicators "signals.csv" [] ∅).1.2 !! "signals.csv" = None /\
  (screen_by_indicators Sample.to_datetime [("AAA.csv", Sample.csv_good)]
     Sample.indicators "signals.csv" [] ∅).1.2 !! "signals.csv"
  = Some (Sample.header :: (Row <$> Sample.signals_good "AAA")).
Proof. repeat split; vm_compute; reflexivity. Qed.

(** C6 does not hold.  With an engine that takes every input, an empty
    series and parameters out of range go through [calculate_macd] and
    [calculate_rsi] without any failure; with an engine that rejects its
    input, the failure is the exception of the engine, not [ValueError]. *)
Lemma empty_series_and_bad_parameters_not_checked :
  (calculate_macd Sample.talib_MACD Sample.MACD_CONFIG 0 [Sample.no_bars]).2
  = Ok (0, None) /\
  (calculate_macd Sample.talib_MACD Sample.MACD_CONFIG_bad 0 [Sample.bars]).2
  = Ok (0, Some (STime (Timestamp 500))) /\
  (calculate_rsi Sample.talib_RSI Sample.RSI_CONFIG 0 "1D" [Sample.no_bars]).2
  = Ok (0, None) /\
  (calculate_rsi Sample.talib_RSI Sample.RSI_CONFIG_bad 0 "1D"
     [Sample.bars]).2
  = Ok (0, Some (STime (Timestamp 400))) /\
  ~ is_ValueError
      (calculate_macd Sample.talib_MACD_failing Sample.MACD_CONFIG_bad 0
         [Sample.no_bars]).2 /\
  ~ is_ValueError
      (calculate_rsi Sample.talib_RSI_failing Sample.RSI_CONFIG_bad 0 "1D"
         [Sample.no_bars]).2.
Proof.
  repeat split; try (vm_compute; reflexivity);
    intros [msg H]; vm_compute in H; discriminate.
Qed.

(** C7 does not hold.  The caller's table has no ['MACD'] and no ['RSI_1D']
    column before the calls, and has them after. *)
Lemma indicator_mutates_the_callers_table :
  column_at [Sample.bars] 0 "MACD" = None /\
  column_at
    (calculate_macd Sample.talib_MACD Sample.MACD_CONFIG 0 [Sample.bars]).1
    0 "MACD" = Some (Floats Sample.closes) /\
  column_at [Sample.bars] 0 "RSI_1D" = None /\
  column_at
    (calculate_rsi Sample.talib_RSI Sample.RSI_CONFIG 0 "1D" [Sample.bars]).1
    0 "RSI_1D" = Some (Floats Sample.closes).
Proof. repeat split; vm_compute; reflexivity. Qed.

(** ** Further properties of the indicator functions *)

Lemma foldr_datetime_max_latest (l : list datetime) :
  match foldr datetime_max NaT l with
  | NaT => forall x, x ∈ l -> x = NaT
  | Timestamp t =>
      Timestamp t ∈ l /\ forall y, Timestamp y ∈ l -> (y <= t)%Z
  end.
Proof.
  induction l as [|x l IH]; simpl.
  - intros x H. now apply elem_of_nil in H.
  - destruct (foldr datetime_max NaT l) as [|t] eqn:Hm; destruct x as [|a];
      simpl.
    + intros x Hx. apply elem_of_cons in Hx as [->|Hx]; auto.
    + split; [left|]. intros y Hy. apply elem_of_cons in Hy as [[= ->]|Hy].
      * lia.
      * now apply IH in Hy.
    + destruct IH as [Hin Hmax]. split; [now right|].
      intros y Hy. apply elem_of_cons in Hy as [Hy|Hy]; [discriminate|].
      now apply Hmax.
    + destruct IH as [Hin Hmax].
      destruct (Z.max_spec a t) as [[Hlt ->]|[Hle ->]].
      * split; [now right|]. intros y Hy.
        apply elem_of_cons in Hy as [[= ->]|Hy]; [lia | now apply Hmax].
      * split; [left|]. intros y Hy.
        apply elem_of_cons in Hy as [[= ->]|Hy]; [lia|].
        apply Hmax in Hy. lia.
Qed.

Lemma select_latest_flagged flags ts :
  latest_flagged flags ts (foldr datetime_max NaT (select flags ts)).
Proof.
  pose proof (foldr_datetime_max_latest (select flags ts)) as H.
  unfold latest_flagged.
  destruct (foldr datetime_max NaT (select flags ts)) as [|t].
  - intros i x Hi Hx. apply H. apply elem_of_select. eauto.
  - destruct H as [Hin Hmax]. split.
    + now apply elem_of_select in Hin.
    + intros i y Hi Hy. apply Hmax. apply elem_of_select. eauto.
Qed.

Lemma cross_up_not_consecutive macd signal i :
  cross_up macd signal !! i = Some true ->
  cross_up macd signal !! S i <> Some true.
Proof.
  intros H1 H2.
  apply cross_up_Some_true in H1
    as (p & a & b & c & d & -> & _ & _ & Hc & Hd & _ & Hlt).
  apply cross_up_Some_true in H2
    as (p' & a' & b' & c' & d' & [= <-] & Ha' & Hb' & _ & _ & Hle & _).
  rewrite Hc in Ha'. rewrite Hd in Hb'.
  injection Ha' as <-. injection Hb' as <-.
  apply float_lt_spec in Hlt. apply float_le_spec in Hle.
  now apply ext_lt_not_le in Hlt.
Qed.

Lemma rsi_buy_not_consecutive rsi low_line i :
  rsi_buy rsi low_line !! i = Some true ->
  rsi_buy rsi low_line !! S i <> Some true.
Proof.
  intros H1 H2.
  apply rsi_buy_Some_true in H1 as (p & a & c & -> & _ & Hc & Hlt & _).
  apply rsi_buy_Some_true in H2 as (p' & a' & c' & [= <-] & Ha' & _ & _ & Hle).
  rewrite Hc in Ha'. injection Ha' as <-.
  apply float_lt_spec in Hlt. apply float_le_spec in Hle.
  now apply ext_lt_not_le in Hlt.
Qed.

Ltac lookup_inserts :=
  repeat first [ rewrite lookup_insert_eq
               | rewrite lookup_insert_ne by (done || congruence) ].

Lemma macd_columns_idem (df : DataFrame) macd signal hist :
  macd_columns (macd_columns df macd signal hist) macd signal hist
  = macd_columns df macd signal hist.
Proof.
  apply map_eq. intros k. unfold macd_columns.
  destruct (decide (k = "Buy Signal")) as [->|?]; [now lookup_inserts|].
  destruct (decide (k = "Histogram")) as [->|?]; [now lookup_inserts|].
  destruct (decide (k = "Signal Line")) as [->|?]; [now lookup_inserts|].
  destruct (decide (k = "MACD")) as [->|?]; now lookup_inserts.
Qed.

Lemma rsi_columns_idem (df : DataFrame) res rsi low_line :
  rsi_columns (rsi_columns df res rsi low_line) res rsi low_line
  = rsi_columns df res rsi low_line.
Proof.
  apply map_eq. intros k. unfold rsi_columns.
  destruct (decide (k = "Buy Signal")) as [->|?]; [now lookup_inserts|].
  destruct (decide (k = ("RSI_" ++ res)%string)) as [->|?];
    now lookup_inserts.
Qed.

Lemma macd_columns_other (df : DataFrame) macd signal hist name :
  name <> "MACD" -> name <> "Signal Line" -> name <> "Histogram" ->
  name <> "Buy Signal" ->
  macd_columns df macd signal hist !! name = df !! name.
Proof.
  intros. unfold macd_columns. now rewrite !lookup_insert_ne by congruence.
Qed.

Lemma rsi_columns_other (df : DataFrame) res rsi low_line name :
  name <> ("RSI_" ++ res)%string -> name <> "Buy Signal" ->
  rsi_columns df res rsi low_line !! name = df !! name.
Proof.
  intros. unfold rsi_columns. now rewrite !lookup_insert_ne by congruence.
Qed.

Section IndicatorExtras.

Variable talib_MACD :
  column -> Z -> Z -> Z -> result (list float * list float * list float).
Variable talib_RSI : column -> Z -> result (list float).
Variable MACD_CONFIG : macd_config.
Variable RSI_CONFIG : rsi_config.

(** X1.  In the ['Buy Signal'] column that [calculate_macd] or
    [calculate_rsi] leaves in the table, two bars in a row are never both
    flagged: a flag at bar [i] needs the line strictly on the one side at
    [i], a flag at bar [i+1] needs it on the other side at [i]. *)
Theorem no_two_flags_in_a_row (h : store) data (df : DataFrame) close :
  h !! data = Some df -> df !! "Close" = Some close ->
  (forall macd signal hist flags i,
     talib_MACD close (fast_length MACD_CONFIG) (slow_length MACD_CONFIG)
       (signal_length MACD_CONFIG) = Ok (macd, signal, hist) ->
     column_at (calculate_macd talib_MACD MACD_CONFIG data h).1 data
       "Buy Signal" = Some (Bools flags) ->
     flags !! i = Some true -> flags !! S i <> Some true) /\
  (forall res rsi flags i,
     talib_RSI close (period RSI_CONFIG) = Ok rsi ->
     column_at (calculate_rsi talib_RSI RSI_CONFIG data res h).1 data
       "Buy Signal" = Some (Bools flags) ->
     flags !! i = Some true -> flags !! S i <> Some true).
Proof.
  intros Hh Hc. split.
  - intros macd signal hist flags i He Hcol.
    rewrite (calculate_macd_run _ _ _ _ _ _ _ _ _ Hh Hc He) in Hcol.
    simpl in Hcol. unfold column_at in Hcol.
    rewrite (store_insert_lookup _ _ _ _ Hh) in Hcol.
    unfold macd_columns in Hcol. rewrite lookup_insert_eq in Hcol.
    injection Hcol as <-. apply cross_up_not_consecutive.
  - intros res rsi flags i He Hcol.
    rewrite (calculate_rsi_run _ _ _ _ _ _ _ _ Hh Hc He) in Hcol.
    simpl in Hcol. unfold column_at in Hcol.
    rewrite (store_insert_lookup _ _ _ _ Hh) in Hcol.
    unfold rsi_columns in Hcol. rewrite lookup_insert_eq in Hcol.
    injection Hcol as <-. apply rsi_buy_not_consecutive.
Qed.

(** X2.  Whatever the order of the timestamps, the date returned next to
    the table is the latest timestamp among the flagged bars (the maximum,
    not the timestamp of the last row); flagged bars without timestamp are
    passed over, and the date is [NaT] only when every flagged bar is
    without timestamp. *)
Theorem last_signal_is_latest_flagged (h : store) data (df : DataFrame)
    close ts :
  h !! data = Some df -> df !! "Close" = Some close ->
  df !! "Datetime" = Some (Datetimes ts) ->
  (forall macd signal hist,
     talib_MACD close (fast_length MACD_CONFIG) (slow_length MACD_CONFIG)
       (signal_length MACD_CONFIG) = Ok (macd, signal, hist) ->
     (exists i, cross_up macd signal !! i = Some true) ->
     exists m,
       (calculate_macd talib_MACD MACD_CONFIG data h).2
       = Ok (data, Some (STime m)) /\
       latest_flagged (cross_up macd signal) ts m) /\
  (forall res rsi,
     talib_RSI close (period RSI_CONFIG) = Ok rsi ->
     (exists i, rsi_buy rsi (low_line RSI_CONFIG) !! i = Some true) ->
     exists m,
       (calculate_rsi talib_RSI RSI_CONFIG data res h).2
       = Ok (data, Some (STime m)) /\
       latest_flagged (rsi_buy rsi (low_line RSI_CONFIG)) ts m).
Proof.
  intros Hh Hc Hts. split.
  - intros macd signal hist He [i Hi].
    exists (foldr datetime_max NaT (select (cross_up macd signal) ts)).
    split; [|apply select_latest_flagged].
    rewrite (calculate_macd_outcome _ _ _ _ _ Hh), Hc, He, Hts.
    now rewrite (existsb_id_true _ i Hi).
  - intros res rsi He [i Hi].
    exists (foldr datetime_max NaT
              (select (rsi_buy rsi (low_line RSI_CONFIG)) ts)).
    split; [|apply select_latest_flagged].
    rewrite (calculate_rsi_outcome _ _ _ _ _ _ Hh), Hc, He, Hts.
    cbv zeta. now rewrite (existsb_id_true _ i Hi).
Qed.

(** X3.  When a bar is flagged and the table has no ['Datetime'] column,
    the call ends with [KeyError] after the new columns have been written:
    the caller's table is left changed by the failed call. *)
Theorem KeyError_leaves_table_changed (h : store) data (df : DataFrame)
    close :
  h !! data = Some df -> df !! "Close" = Some close ->
  df !! "Datetime" = None ->
  (forall macd signal hist,
     talib_MACD close (fast_length MACD_CONFIG) (slow_length MACD_CONFIG)
       (signal_length MACD_CONFIG) = Ok (macd, signal, hist) ->
     (exists i, cross_up macd signal !! i = Some true) ->
     calculate_macd talib_MACD MACD_CONFIG data h
     = (<[data := macd_columns df macd signal hist]> h,
        Raise (KeyError "Datetime"))) /\
  (forall res rsi,
     talib_RSI close (period RSI_CONFIG) = Ok rsi ->
     (exists i, rsi_buy rsi (low_line RSI_CONFIG) !! i = Some true) ->
     calculate_rsi talib_RSI RSI_CONFIG data res h
     = (<[data := rsi_columns df res rsi (low_line RSI_CONFIG)]> h,
        Raise (KeyError "Datetime"))).
Proof.
  intros Hh Hc Hd. split.
  - intros macd signal hist He [i Hi].
    rewrite (calculate_macd_run _ _ _ _ _ _ _ _ _ Hh Hc He).
    rewrite last_signal_of_macd_columns, Hd.
    now rewrite (existsb_id_true _ i Hi).
  - intros res rsi He [i Hi].
    rewrite (calculate_rsi_run _ _ _ _ _ _ _ _ Hh Hc He).
    rewrite last_signal_of_rsi_columns, Hd.
    now rewrite (existsb_id_true _ i Hi).
Qed.

(** X4.  Calling [calculate_macd] (or [calculate_rsi]) a second time on the
    table it has just updated changes nothing: the store and the result
    are those of the first call. *)
Theorem second_call_changes_nothing (h : store) data (df : DataFrame) :
  h !! data = Some df ->
  calculate_macd talib_MACD MACD_CONFIG data
    (calculate_macd talib_MACD MACD_CONFIG data h).1
  = calculate_macd talib_MACD MACD_CONFIG data h /\
  (forall res,
     calculate_rsi talib_RSI RSI_CONFIG data res
       (calculate_rsi talib_RSI RSI_CONFIG data res h).1
     = calculate_rsi talib_RSI RSI_CONFIG data res h).
Proof.
  intros Hh. split; [|intros res].
  - destruct (df !! "Close") as [close|] eqn:Hc.
    + destruct (talib_MACD close (fast_length MACD_CONFIG)
                  (slow_length MACD_CONFIG) (signal_length MACD_CONFIG))
        as [[[macd signal] hist]|e] eqn:He.
      * rewrite (calculate_macd_run _ _ _ _ _ _ _ _ _ Hh Hc He). simpl.
        assert (Hh' : <[data := macd_columns df macd signal hist]> h !! data
                      = Some (macd_columns df macd signal hist))
          by now apply store_insert_lookup with df.
        assert (Hc' : macd_columns df macd signal hist !! "Close"
                      = Some close)
          by now rewrite macd_columns_other.
        rewrite (calculate_macd_run _ _ _ _ _ _ _ _ _ Hh' Hc' He).
        now rewrite macd_columns_idem, list_insert_insert_eq.
      * rewrite (calculate_macd_engine_raise _ _ _ _ _ _ _ Hh Hc He). simpl.
        apply (calculate_macd_engine_raise _ _ _ _ _ _ _ Hh Hc He).
    + rewrite (calculate_macd_no_close _ _ _ _ _ Hh Hc). simpl.
      apply (calculate_macd_no_close _ _ _ _ _ Hh Hc).
  - destruct (df !! "Close") as [close|] eqn:Hc.
    + destruct (talib_RSI close (period RSI_CONFIG)) as [rsi|e] eqn:He.
      * rewrite (calculate_rsi_run _ _ _ _ _ _ _ _ Hh Hc He). simpl.
        assert (Hh' : <[data := rsi_columns df res rsi
                                  (low_line RSI_CONFIG)]> h !! data
                      = Some (rsi_columns df res rsi (low_line RSI_CONFIG)))
          by now apply store_insert_lookup with df.
        assert (Hc' : rsi_columns df res rsi (low_line RSI_CONFIG)
                        !! "Close" = Some close)
          by now rewrite rsi_columns_other.
        rewrite (calculate_rsi_run _ _ _ _ _ _ _ _ Hh' Hc' He).
        now rewrite rsi_columns_idem, list_insert_insert_eq.
      * rewrite (calculate_rsi_engine_raise _ _ _ _ _ _ _ _ Hh Hc He). simpl.
        apply (calculate_rsi_engine_raise _ _ _ _ _ _ _ _ Hh Hc He).
    + rewrite (calculate_rsi_no_close _ _ _ _ _ _ Hh Hc). simpl.
      apply (calculate_rsi_no_close _ _ _ _ _ _ Hh Hc).
Qed.

End IndicatorExtras.

Section IndicatorOrder.

Variable talib_MACD :
  column -> Z -> Z -> Z -> result (list float * list float * list float).
Variable talib_RSI : column -> Z -> result (list float).
Variable MACD_CONFIG : macd_config.
Variable RSI_CONFIG : rsi_config.

Lemma calculate_macd_table (h : store) data (df : DataFrame) :
  h !! data = Some df ->
  exists df' : DataFrame,
    (calculate_macd talib_MACD MACD_CONFIG data h).1 !! data = Some df' /\
    df' !! "Close" = df !! "Close" /\
    df' !! "Datetime" = df !! "Datetime".
Proof.
  intros Hh. destruct (df !! "Close") as [close|] eqn:Hc.
  - destruct (talib_MACD close (fast_length MACD_CONFIG)
                (slow_length MACD_CONFIG) (signal_length MACD_CONFIG))
      as [[[macd signal] hist]|e] eqn:He.
    + rewrite (calculate_macd_run _ _ _ _ _ _ _ _ _ Hh Hc He). simpl.
      exists (macd_columns df macd signal hist).
      split; [now apply store_insert_lookup with df|].
      now rewrite !macd_columns_other.
    + rewrite (calculate_macd_engine_raise _ _ _ _ _ _ _ Hh Hc He).
      now exists df.
  - rewrite (calculate_macd_no_close _ _ _ _ _ Hh Hc). now exists df.
Qed.

Lemma calculate_rsi_table (h : store) data res (df : DataFrame) :
  h !! data = Some df ->
  exists df' : DataFrame,
    (calculate_rsi talib_RSI RSI_CONFIG data res h).1 !! data = Some df' /\
    df' !! "Close" = df !! "Close" /\
    df' !! "Datetime" = df !! "Datetime".
Proof.
  intros Hh. destruct (df !! "Close") as [close|] eqn:Hc.
  - destruct (talib_RSI close (period RSI_CONFIG)) as [rsi|e] eqn:He.
    + rewrite (calculate_rsi_run _ _ _ _ _ _ _ _ Hh Hc He). simpl.
      exists (rsi_columns df res rsi (low_line RSI_CONFIG)).
      split; [now apply store_insert_lookup with df|].
      now rewrite !rsi_columns_other.
    + rewrite (calculate_rsi_engine_raise _ _ _ _ _ _ _ _ Hh Hc He).
      now exists df.
  - rewrite (calculate_rsi_no_close _ _ _ _ _ _ Hh Hc). now exists df.
Qed.

(** X5.  The two indicator functions share one table and do not disturb
    each other's result: what [calculate_rsi] returns after
    [calculate_macd] has run on the table (whether it returned or raised)
    is what it returns on the table as it was, and the other way round.
    What is shared is the ['Buy Signal'] column: after [calculate_macd]
    and then [calculate_rsi] it holds the flags of the RSI only, next to
    the three columns of the MACD. *)
Theorem indicators_do_not_disturb_each_other (h : store) data
    (df : DataFrame) res :
  h !! data = Some df ->
  (calculate_rsi talib_RSI RSI_CONFIG data res
     (calculate_macd talib_MACD MACD_CONFIG data h).1).2
  = (calculate_rsi talib_RSI RSI_CONFIG data res h).2 /\
  (calculate_macd talib_MACD MACD_CONFIG data
     (calculate_rsi talib_RSI RSI_CONFIG data res h).1).2
  = (calculate_macd talib_MACD MACD_CONFIG data h).2 /\
  (forall close macd signal hist rsi,
     df !! "Close" = Some close ->
     talib_MACD close (fast_length MACD_CONFIG) (slow_length MACD_CONFIG)
       (signal_length MACD_CONFIG) = Ok (macd, signal, hist) ->
     talib_RSI close (period RSI_CONFIG) = Ok rsi ->
     let h2 :=
       (calculate_rsi talib_RSI RSI_CONFIG data res
          (calculate_macd talib_MACD MACD_CONFIG data h).1).1 in
     column_at h2 data "Buy Signal"
     = Some (Bools (rsi_buy rsi (low_line RSI_CONFIG))) /\
     column_at h2 data "MACD" = Some (Floats macd) /\
     column_at h2 data "Signal Line" = Some (Floats signal) /\
     column_at h2 data "Histogram" = Some (Floats hist)).
Proof.
  intros Hh. split; [|split].
  - destruct (calculate_macd_table _ _ _ Hh) as (df' & Hh' & Hc' & Hd').
    rewrite (calculate_rsi_outcome _ _ _ _ _ _ Hh').
    rewrite (calculate_rsi_outcome _ _ _ _ _ _ Hh).
    now rewrite Hc', Hd'.
  - destruct (calculate_rsi_table _ _ res _ Hh) as (df' & Hh' & Hc' & Hd').
    rewrite (calculate_macd_outcome _ _ _ _ _ Hh').
    rewrite (calculate_macd_outcome _ _ _ _ _ Hh).
    now rewrite Hc', Hd'.
  - intros close macd signal hist rsi Hc Hm Hr h2. subst h2.
    rewrite (calculate_macd_run _ _ _ _ _ _ _ _ _ Hh Hc Hm). simpl.
    assert (Hh' : <[data := macd_columns df macd signal hist]> h !! data
                  = Some (macd_columns df macd signal hist))
      by now apply store_insert_lookup with df.
    assert (Hc' : macd_columns df macd signal hist !! "Close" = Some close)
      by now rewrite macd_columns_other.
    rewrite (calculate_rsi_run _ _ _ _ _ _ _ _ Hh' Hc' Hr). simpl.
    unfold column_at. rewrite (store_insert_lookup _ _ _ _ Hh').
    unfold rsi_columns, macd_columns. repeat split; now lookup_inserts.
Qed.

End IndicatorOrder.

(** ** The run of the main block's indicators, without the object store *)

Section MainIndicators.

Variable to_datetime : column -> result column.
Variable talib_MACD :
  column -> Z -> Z -> Z -> result (list float * list float * list float).
Variable talib_RSI : column -> Z -> result (list float).
Variable MACD_CONFIG : macd_config.
Variable RSI_CONFIG : rsi_config.

Let indicators :=
  main_indicators talib_MACD talib_RSI MACD_CONFIG RSI_CONFIG.

Lemma apply_indicator_macd stock_symbol data all_signals (h : store)
    (df : DataFrame) c :
  h !! data = Some df -> df !! "Datetime" = Some c ->
  apply_indicator stock_symbol (data, all_signals)
    (indicator_macd talib_MACD MACD_CONFIG) h
  = match df !! "Close" with
    | None =>
        (h, Raise (ValueError
                     "The input data must contain a 'Close' column."))
    | Some close =>
        match talib_MACD close (fast_length MACD_CONFIG)
                (slow_length MACD_CONFIG) (signal_length MACD_CONFIG) with
        | Raise e => (h, Raise e)
        | Ok (macd, signal, hist) =>
            (<[data := macd_columns df macd signal hist]> h,
             Ok (data,
                 all_signals
                   ++ [records_at c (cross_up macd signal) stock_symbol
                         "MACD"]))
        end
    end.
Proof.
  intros Hh Hd. unfold apply_indicator.
  destruct (df !! "Close") as [close|] eqn:Hc.
  - destruct (talib_MACD _ _ _ _) as [[[macd signal] hist]|e] eqn:He.
    + set (df1 := macd_columns df macd signal hist).
      assert (Hh1 : <[data := df1]> h !! data = Some df1)
        by now apply store_insert_lookup with df.
      assert (Hcall : exists aux,
                 call (indicator_macd talib_MACD MACD_CONFIG) data h
                 = (<[data := df1]> h, Ok (RTuple data aux))).
      { simpl. unfold bind.
        rewrite (calculate_macd_run _ _ _ _ _ _ _ _ _ Hh Hc He).
        rewrite last_signal_of_macd_columns, Hd.
        destruct (existsb id (cross_up macd signal)); eauto. }
      destruct Hcall as [aux Hcall].
      rewrite (bind_ok _ _ _ _ _ Hcall).
      rewrite (bind_ok _ _ _ _ _ (deref_ok _ _ _ Hh1)).
      rewrite decide_False
        by (unfold df1, macd_columns; now rewrite lookup_insert_eq).
      unfold bind, lift, signals_of, mask_of. unfold df1 at 1, macd_columns.
      rewrite lookup_insert_eq. fold (macd_columns df macd signal hist).
      unfold df1. now rewrite macd_columns_other, Hd.
    + apply bind_raise. simpl. apply bind_raise.
      apply (calculate_macd_engine_raise _ _ _ _ _ _ _ Hh Hc He).
  - apply bind_raise. simpl. apply bind_raise.
    apply (calculate_macd_no_close _ _ _ _ _ Hh Hc).
Qed.

Lemma apply_indicator_rsi stock_symbol data all_signals (h : store)
    (df : DataFrame) c :
  h !! data = Some df -> df !! "Datetime" = Some c ->
  apply_indicator stock_symbol (data, all_signals)
    (indicator_rsi talib_RSI RSI_CONFIG) h
  = match df !! "Close" with
    | None =>
        (h, Raise (ValueError
                     "The input data must contain a 'Close' column."))
    | Some close =>
        match talib_RSI close (period RSI_CONFIG) with
        | Raise e => (h, Raise e)
        | Ok rsi =>
            (<[data := rsi_columns df "1D" rsi (low_line RSI_CONFIG)]> h,
             Ok (data,
                 all_signals
                   ++ [records_at c (rsi_buy rsi (low_line RSI_CONFIG))
                         stock_symbol "RSI"]))
        end
    end.
Proof.
  intros Hh Hd. unfold apply_indicator.
  destruct (df !! "Close") as [close|] eqn:Hc.
  - destruct (talib_RSI _ _) as [rsi|e] eqn:He.
    + set (df1 := rsi_columns df "1D" rsi (low_line RSI_CONFIG)).
      assert (Hh1 : <[data := df1]> h !! data = Some df1)
        by now apply store_insert_lookup with df.
      assert (Hcall : exists aux,
                 call (indicator_rsi talib_RSI RSI_CONFIG) data h
                 = (<[data := df1]> h, Ok (RTuple data aux))).
      { simpl. unfold bind.
        rewrite (calculate_rsi_run _ _ _ _ _ _ _ _ Hh Hc He).
        rewrite last_signal_of_rsi_columns, Hd.
        destruct (existsb id (rsi_buy rsi (low_line RSI_CONFIG))); eauto. }
      destruct Hcall as [aux Hcall].
      rewrite (bind_ok _ _ _ _ _ Hcall).
      rewrite (bind_ok _ _ _ _ _ (deref_ok _ _ _ Hh1)).
      rewrite decide_False
        by (unfold df1, rsi_columns; now rewrite lookup_insert_eq).
      unfold bind, lift, signals_of, mask_of. unfold df1 at 1, rsi_columns.
      rewrite lookup_insert_eq.
      fold (rsi_columns df "1D" rsi (low_line RSI_CONFIG)).
      unfold df1. now rewrite rsi_columns_other, Hd.
    + apply bind_raise. simpl. apply bind_raise.
      apply (calculate_rsi_engine_raise _ _ _ _ _ _ _ _ Hh Hc He).
  - apply bind_raise. simpl. apply bind_raise.
    apply (calculate_rsi_no_close _ _ _ _ _ _ Hh Hc).
Qed.

Lemma screen_file_main_run all_signals file_name
    (content : DataFrame) (h : store) :
  endswith file_name ".csv" = true ->
  screen_file to_datetime indicators all_signals (file_name, content) h
  = (h ++ [(file_run to_datetime talib_MACD talib_RSI MACD_CONFIG
              RSI_CONFIG file_name content).1],
     match (file_run to_datetime talib_MACD talib_RSI MACD_CONFIG
              RSI_CONFIG file_name content).2 with
     | Ok batches => Ok (all_signals ++ batches)
     | Raise e => Raise e
     end).
Proof.
  intros Hcsv. unfold file_run.
  destruct (content !! "Datetime") as [c|] eqn:Hd;
    [|now apply screen_file_no_datetime].
  destruct (to_datetime c) as [c'|e] eqn:Hconv;
    [|now apply screen_file_to_datetime_raise with c].
  rewrite (screen_file_csv _ _ _ _ _ _ _ _ Hcsv Hd Hconv).
  set (df0 := <["Datetime" := c']> content).
  assert (Hh0 : (h ++ [df0]) !! length h = Some df0)
    by (apply list_lookup_middle; reflexivity).
  assert (Hd0 : df0 !! "Datetime" = Some c') by apply lookup_insert_eq.
  assert (Hc0 : df0 !! "Close" = content !! "Close")
    by (unfold df0; now rewrite lookup_insert_ne).
  unfold indicators, main_indicators. cbn [for_each]. unfold bind at 1.
  rewrite (apply_indicator_macd _ _ _ _ _ _ Hh0 Hd0), Hc0.
  destruct (content !! "Close") as [close|] eqn:Hc; [|reflexivity].
  destruct (talib_MACD _ _ _ _) as [[[macd signal] hist]|e] eqn:He;
    [|reflexivity].
  rewrite store_insert_last.
  set (df1 := macd_columns df0 macd signal hist).
  assert (Hh1 : (h ++ [df1]) !! length h = Some df1)
    by (apply list_lookup_middle; reflexivity).
  assert (Hd1 : df1 !! "Datetime" = Some c')
    by (unfold df1; now rewrite macd_columns_other).
  assert (Hc1 : df1 !! "Close" = Some close)
    by (unfold df1; rewrite macd_columns_other by done; congruence).
  unfold bind at 1.
  rewrite (apply_indicator_rsi _ _ _ _ _ _ Hh1 Hd1), Hc1.
  destruct (talib_RSI _ _) as [rsi|e] eqn:Hr; [|reflexivity].
  rewrite store_insert_last. simpl. now rewrite <- app_assoc.
Qed.

Lemma for_each_screen_file_of_main_indicators stock_dir all_signals
    (h : store) :
  for_each stock_dir (screen_file to_datetime indicators) all_signals h
  = (h ++ (dir_run to_datetime talib_MACD talib_RSI MACD_CONFIG RSI_CONFIG
             stock_dir).1,
     match (dir_run to_datetime talib_MACD talib_RSI MACD_CONFIG RSI_CONFIG
              stock_dir).2 with
     | Ok batches => Ok (all_signals ++ batches)
     | Raise e => Raise e
     end).
Proof.
  revert all_signals h.
  induction stock_dir as [|[file_name content] rest IH];
    intros all_signals h; cbn [for_each dir_run].
  - unfold ret. simpl. now rewrite !app_nil_r.
  - unfold bind. destruct (endswith file_name ".csv") eqn:Hcsv.
    + rewrite (screen_file_main_run _ _ _ _ Hcsv).
      destruct (file_run _ _ _ _ _ _ _) as [df [batches|e]]; simpl;
        [|reflexivity].
      rewrite IH.
      destruct (dir_run _ _ _ _ _ rest) as [tables [more|e]]; simpl.
      * now rewrite <- !app_assoc.
      * now rewrite <- app_assoc.
    + rewrite (screen_file_skip _ _ _ _ _ _ Hcsv). apply IH.
Qed.

(** X6.  With the two indicators of the main block, the screening of one
    [.csv] file adds exactly one table to the object store and depends on
    nothing else in it.  The outcome is, in this order: [ValueError] when
    the ['Datetime'] column is missing; the exception of [pd.to_datetime];
    [ValueError] when the ['Close'] column is missing; the exception of
    [talib.MACD]; the exception of [talib.RSI] (both engines get the same
    ['Close'] column); and otherwise two batches, the MACD records and
    then the RSI records, one record for each flagged bar with the
    converted timestamp of the bar. *)
Theorem screen_file_of_main_indicators all_signals file_name
    (content : DataFrame) (h : store) :
  endswith file_name ".csv" = true ->
  screen_file to_datetime indicators all_signals (file_name, content) h
  = (h ++ [(file_run to_datetime talib_MACD talib_RSI MACD_CONFIG
              RSI_CONFIG file_name content).1],
     match (file_run to_datetime talib_MACD talib_RSI MACD_CONFIG
              RSI_CONFIG file_name content).2 with
     | Ok batches => Ok (all_signals ++ batches)
     | Raise e => Raise e
     end) /\
  (forall h2 : store,
     (screen_file to_datetime indicators all_signals (file_name, content)
        h2).2
     = (screen_file to_datetime indicators all_signals (file_name, content)
          h).2) /\
  (forall other df,
     h !! other = Some df ->
     (screen_file to_datetime indicators all_signals (file_name, content)
        h).1 !! other = Some df).
Proof.
  intros Hcsv. split; [now apply screen_file_main_run|]. split.
  - intros h2. now rewrite !screen_file_main_run.
  - intros other df Hother. rewrite screen_file_main_run by assumption.
    simpl. now apply lookup_app_l_Some.
Qed.

(** X7.  With the two indicators of the main block, a run is a function of
    the directory listing alone.  The batches it collects (or the
    exception) are those of [dir_run]; the object store is only extended,
    by one table for each [.csv] file reached, the objects it held are
    left as they were; and the files written and the result do not depend
    on the object store the run starts from. *)
Theorem run_of_main_indicators stock_dir output_file (h : store)
    (fs : gmap string (list line)) :
  collect_signals to_datetime stock_dir indicators h
  = (h ++ (dir_run to_datetime talib_MACD talib_RSI MACD_CONFIG RSI_CONFIG
             stock_dir).1,
     (dir_run to_datetime talib_MACD talib_RSI MACD_CONFIG RSI_CONFIG
        stock_dir).2) /\
  (exists tables,
     (screen_by_indicators to_datetime stock_dir indicators output_file
        h fs).1.1 = h ++ tables /\
     length tables <= length (csv_files stock_dir)) /\
  (forall h2 : store,
     (screen_by_indicators to_datetime stock_dir indicators output_file
        h2 fs).1.2
     = (screen_by_indicators to_datetime stock_dir indicators output_file
          h fs).1.2 /\
     (screen_by_indicators to_datetime stock_dir indicators output_file
        h2 fs).2
     = (screen_by_indicators to_datetime stock_dir indicators output_file
          h fs).2).
Proof.
  assert (Hcollect : forall g : store,
             collect_signals to_datetime stock_dir indicators g
             = (g ++ (dir_run to_datetime talib_MACD talib_RSI MACD_CONFIG
                        RSI_CONFIG stock_dir).1,
                (dir_run to_datetime talib_MACD talib_RSI MACD_CONFIG
                   RSI_CONFIG stock_dir).2)).
  { intros g. unfold collect_signals.
    rewrite for_each_screen_file_of_main_indicators.
    now destruct (dir_run _ _ _ _ _ _).2. }
  split; [apply Hcollect|]. split.
  - exists (dir_run to_datetime talib_MACD talib_RSI MACD_CONFIG RSI_CONFIG
              stock_dir).1.
    split.
    + unfold screen_by_indicators. rewrite Hcollect.
      now destruct (dir_run _ _ _ _ _ _).2 as [[|? ?]|?].
    + clear Hcollect. unfold csv_files.
      induction stock_dir as [|[file_name content] rest IH]; simpl; [lia|].
      destruct (endswith file_name ".csv"); simpl; [|exact IH].
      destruct (file_run _ _ _ _ _ _ _) as [df [batches|e]]; simpl;
        [|lia].
      destruct (dir_run _ _ _ _ _ rest) as [tables [more|e]]; simpl in *;
        lia.
  - intros h2. unfold screen_by_indicators. rewrite !Hcollect.
    now destruct (dir_run _ _ _ _ _ _).2 as [[|? ?]|?].
Qed.

End MainIndicators.

(** ** Further properties of the screener, for any indicators *)

Section ScreenerExtras.

Variable to_datetime : column -> result column.

Lemma for_each_screen_file_csv stock_dir indicators all_signals h :
  for_each stock_dir (screen_file to_datetime indicators) all_signals h
  = for_each (csv_files stock_dir) (screen_file to_datetime indicators)
      all_signals h.
Proof.
  revert all_signals h. unfold csv_files.
  induction stock_dir as [|[file_name content] rest IH];
    intros all_signals h; [reflexivity|].
  cbn [List.filter fst]. destruct (endswith file_name ".csv") eqn:Hcsv.
  - cbn [for_each]. unfold bind.
    destruct (screen_file _ _ _ _ _) as [h1 [s1|e]]; [apply IH|reflexivity].
  - cbn [for_each]. unfold bind.
    rewrite (screen_file_skip _ _ _ _ _ _ Hcsv). apply IH.
Qed.

(** X8.  Only the files whose name ends with [.csv] take part in a run:
    the other entries of the directory are skipped without being read, so
    the run is the run over the [.csv] files alone, whatever the other
    entries hold. *)
Theorem only_csv_files_are_screened stock_dir indicators output_file h fs :
  collect_signals to_datetime stock_dir indicators h
  = collect_signals to_datetime (csv_files stock_dir) indicators h /\
  screen_by_indicators to_datetime stock_dir indicators output_file h fs
  = screen_by_indicators to_datetime (csv_files stock_dir) indicators
      output_file h fs.
Proof.
  assert (H : collect_signals to_datetime stock_dir indicators h
              = collect_signals to_datetime (csv_files stock_dir)
                  indicators h)
    by apply for_each_screen_file_csv.
  split; [exact H|]. unfold screen_by_indicators. now rewrite H.
Qed.


(** X10.  A run collects at most one batch of records for each call of an
    indicator on a [.csv] file: the number of batches is bounded by the
    number of [.csv] files times the number of indicators. *)
Theorem at_most_one_batch_per_call stock_dir indicators h h' all_signals :
  collect_signals to_datetime stock_dir indicators h
  = (h', Ok all_signals) ->
  length all_signals <= length (csv_files stock_dir) * length indicators.
Proof.
  unfold collect_signals.
  assert (H : forall acc g,
             for_each stock_dir (screen_file to_datetime indicators) acc g
             = (h', Ok all_signals) ->
             exists l, all_signals = acc ++ l /\
                       length l <= length (csv_files stock_dir)
                                   * length indicators).
  { unfold csv_files.
    induction stock_dir as [|file rest IH]; intros acc g Hrun;
      cbn [for_each] in Hrun.
    - injection Hrun as _ <-. exists []. simpl. rewrite app_nil_r.
  split; [reflexivity | lia].
    - apply bind_inv in Hrun as (g1 & acc1 & Hfile & Hrest).
      apply screen_file_grows in Hfile as (l1 & -> & Hn1).
      apply IH in Hrest as (l2 & -> & Hn2).
      exists (l1 ++ l2). rewrite <- app_assoc, length_app.
      split; [reflexivity|].
      cbn [List.filter]. destruct (endswith file.1 ".csv"); simpl; lia. }
  intros Hrun. destruct (H [] h Hrun) as (l & -> & Hn). exact Hn.
Qed.

End ScreenerExtras.

(** X11.  The records made from a table are the flagged bars of its
    ['Buy Signal'] column, each with the cell of the ['Datetime'] column at
    that bar, the symbol of the file and the type of the indicator; with
    columns of equal length there are as many records as flagged bars. *)
Theorem one_record_per_flagged_bar (df : DataFrame) stock_symbol ind mask c :
  df !! "Buy Signal" = Some (Bools mask) -> df !! "Datetime" = Some c ->
  exists records,
    signals_of df stock_symbol ind = Ok records /\
    (forall r,
       r ∈ records <->
       exists i t,
         mask !! i = Some true /\ cells c !! i = Some t /\
         r = {| Datetime := t; symbol := stock_symbol;
                signal_type := signal_type_of (__name__ ind) |}) /\
    (length mask = length (cells c) ->
     length records = length (List.filter id mask)).
Proof.
  intros Hm Hd. unfold signals_of, mask_of. rewrite Hm, Hd.
  eexists. split; [reflexivity|]. split.
  - intros r. rewrite list_elem_of_fmap. split.
    + intros (t & -> & Ht). apply elem_of_select in Ht as (i & Hi & Ht).
      eauto.
    + intros (i & t & Hi & Ht & ->). exists t. split; [reflexivity|].
      apply elem_of_select. eauto.
  - intros Hlen. rewrite length_fmap. now apply length_select.
Qed.

(** X17.  The batch of an indicator is read from the table the indicator
    returns, whoever wrote its ['Buy Signal'] column: an indicator that does
    not write that column gets the flags left there by an earlier indicator
    (or by the file), under its own signal type; and a returned table
    without the column adds no batch and raises nothing.  The loop goes on
    with the returned table. *)
Theorem batch_is_read_from_returned_table stock_symbol data all_signals ind
    (h h' : store) res (df : DataFrame) :
  call ind data h = (h', Ok res) ->
  let data' := match res with RTuple d _ => d | RFrame d => d end in
  h' !! data' = Some df ->
  (forall mask c,
     df !! "Buy Signal" = Some (Bools mask) -> df !! "Datetime" = Some c ->
     apply_indicator stock_symbol (data, all_signals) ind h
     = (h', Ok (data',
                all_signals
                  ++ [records_at c mask stock_symbol
                        (signal_type_of (__name__ ind))]))) /\
  (df !! "Buy Signal" = None ->
   apply_indicator stock_symbol (data, all_signals) ind h
   = (h', Ok (data', all_signals))).
Proof.
  intros Hcall data' Hh'. split.
  - intros mask c Hm Hd. unfold apply_indicator.
    rewrite (bind_ok _ _ _ _ _ Hcall). fold data'.
    rewrite (bind_ok _ _ _ _ _ (deref_ok _ _ _ Hh')).
    rewrite decide_False by congruence.
    unfold bind, lift, signals_of, mask_of. now rewrite Hm, Hd.
  - intros Hnone. unfold apply_indicator.
    rewrite (bind_ok _ _ _ _ _ Hcall). fold data'.
    rewrite (bind_ok _ _ _ _ _ (deref_ok _ _ _ Hh')).
    now rewrite decide_True by assumption.
Qed.

(** ** The printed lines and the main block *)

Section MainBlock.

Variable os_path_exists : string -> bool.
Variable os_listdir : string -> result (list (string * DataFrame)).
Variable to_datetime : column -> result column.
Variable talib_MACD :
  column -> Z -> Z -> Z -> result (list float * list float * list float).
Variable talib_RSI : column -> Z -> result (list float).
Variable MACD_CONFIG : macd_config.
Variable RSI_CONFIG : rsi_config.
Variable STOCK_POST_DIR : string.
Variable CONSOLIDATED_OUTPUT_FILE : string.

Let indicators :=
  main_indicators talib_MACD talib_RSI MACD_CONFIG RSI_CONFIG.

Lemma file_run_batches file_name (content : DataFrame) batches :
  (file_run to_datetime talib_MACD talib_RSI MACD_CONFIG RSI_CONFIG
     file_name content).2 = Ok batches ->
  length batches = 2.
Proof.
  unfold file_run.
  destruct (content !! "Datetime") as [c|]; [|discriminate].
  destruct (to_datetime c) as [c'|e]; [|discriminate].
  destruct (content !! "Close") as [close|]; [|discriminate].
  destruct (talib_MACD _ _ _ _) as [[[macd signal] hist]|e];
    [|discriminate].
  destruct (talib_RSI _ _) as [rsi|e]; [|discriminate].
  simpl. now intros [= <-].
Qed.

Lemma dir_run_batches stock_dir batches :
  (dir_run to_datetime talib_MACD talib_RSI MACD_CONFIG RSI_CONFIG
     stock_dir).2 = Ok batches ->
  length batches = 2 * length (csv_files stock_dir).
Proof.
  revert batches. unfold csv_files.
  induction stock_dir as [|[file_name content] rest IH]; intros batches;
    cbn [dir_run List.filter fst].
  - now intros [= <-].
  - destruct (endswith file_name ".csv"); [|apply IH].
    destruct (file_run _ _ _ _ _ _ _) as [df [b|e]] eqn:Hfile;
      [|discriminate].
    destruct (dir_run _ _ _ _ _ rest) as [tables [more|e]];
      [|discriminate].
    simpl. intros [= <-]. rewrite length_app.
    rewrite (file_run_batches file_name content b) by now rewrite Hfile.
    rewrite (IH more) by reflexivity. simpl. lia.
Qed.

(** X12.  With the two indicators of the main block, what a run prints
    tells whether a [.csv] file was screened, not whether a bar was
    flagged.  A run that returns normally prints [No signals detected.],
    and writes nothing, exactly when the listing holds no [.csv] file.
    With at least one [.csv] file it collects two batches for each file,
    prints [Signals appended to <output_file>] and writes the output file,
    with its header when the file is new, also when no bar is flagged. *)
Theorem printed_line_of_main_indicators stock_dir output_file (h : store)
    (fs : gmap string (list line)) h' fs' printed :
  screen_by_indicators_io to_datetime stock_dir indicators output_file h fs
  = (h', fs', printed, Ok tt) ->
  (csv_files stock_dir = [] ->
   printed = ["No signals detected."] /\ fs' = fs) /\
  (csv_files stock_dir <> [] ->
   printed = [("Signals appended to " ++ output_file)%string] /\
   exists batches,
     length batches = 2 * length (csv_files stock_dir) /\
     fs' !! output_file
     = Some (default [] (fs !! output_file)
               ++ (if path_exists fs output_file then []
                   else [Header ["Datetime"; "symbol"; "signal type"]])
               ++ (Row <$> concat batches))).
Proof.
  unfold screen_by_indicators_io, collect_signals, indicators.
  rewrite for_each_screen_file_of_main_indicators.
  destruct (dir_run _ _ _ _ _ _) as [tables [batches|e]] eqn:Hrun;
    cbn [fst snd]; [|discriminate].
  pose proof (dir_run_batches stock_dir batches) as Hlen.
  rewrite Hrun in Hlen. specialize (Hlen eq_refl).
  destruct batches as [|b batches]; cbn [app].
  - intros [= <- <- <-]. split; [auto|].
    intros Hne. destruct (csv_files stock_dir); [done | simpl in Hlen; lia].
  - cbv zeta. intros [= <- <- <-]. split.
    + intros Hnil. rewrite Hnil in Hlen. simpl in Hlen. lia.
    + intros _. split; [reflexivity|]. exists (b :: batches).
      split; [exact Hlen|]. unfold to_csv. rewrite lookup_insert_eq.
      now destruct (path_exists fs output_file).
Qed.


End MainBlock.

(** ** The symbol of a file and the signal type of an indicator *)

Lemma string_app_cons c (a b : string) :
  (String c a ++ b)%string = String c (a ++ b).
Proof. reflexivity. Qed.

Lemma string_length_app (a b : string) :
  String.length (a ++ b) = String.length a + String.length b.
Proof.
  induction a as [|c a' IH]; [reflexivity|].
  rewrite string_app_cons. simpl. now rewrite IH.
Qed.

Lemma string_app_empty_r (a : string) : (a ++ EmptyString)%string = a.
Proof.
  induction a as [|c a' IH]; [reflexivity|].
  now rewrite string_app_cons, IH.
Qed.

Lemma substring_all (s : string) : substring 0 (String.length s) s = s.
Proof. induction s as [|c s' IH]; simpl; [reflexivity | now rewrite IH]. Qed.

Lemma substring_app_l (a b : string) :
  substring 0 (String.length a) (a ++ b) = a.
Proof.
  induction a as [|c a' IH]; [now destruct b|].
  rewrite string_app_cons. simpl. now rewrite IH.
Qed.

Lemma substring_app_r (a b : string) :
  substring (String.length a) (String.length b) (a ++ b) = b.
Proof.
  induction a as [|c a' IH]; [apply substring_all|].
  rewrite string_app_cons. exact IH.
Qed.

Lemma substring_split (s : string) n :
  n <= String.length s ->
  s = (substring 0 n s ++ substring n (String.length s - n) s)%string.
Proof.
  revert n. induction s as [|c s' IH]; intros [|n] Hn; simpl in Hn |- *;
    try lia; try reflexivity.
  - now rewrite substring_all.
  - rewrite string_app_cons. now rewrite <- IH by lia.
Qed.

Lemma only_dots_forallb (s : string) :
  forallb (Ascii.eqb ".") (list_ascii_of_string s) = true <-> only_dots s.
Proof.
  unfold only_dots. rewrite forallb_forall. split; intros H c Hc.
  - symmetry. now apply Ascii.eqb_eq, H.
  - apply Ascii.eqb_eq. symmetry. now apply H.
Qed.

(** X14.  The names screened are the names [stem ++ ".csv"], and the symbol
    of such a file is its stem, so that the symbol followed by [.csv] gives
    the file name back; the one exception is a stem made of dots only (as
    in the hidden file [.csv]), whose symbol is the whole file name. *)
Theorem stock_symbol_of_csv_name :
  (forall name,
     endswith name ".csv" = true
     <-> exists stem : string, name = (stem ++ ".csv")%string) /\
  (forall stem : string,
     ~ only_dots stem -> splitext_root (stem ++ ".csv") = stem) /\
  (forall stem : string,
     only_dots stem ->
     splitext_root (stem ++ ".csv") = (stem ++ ".csv")%string).
Proof.
  assert (Hroot : forall stem : string,
             substring 0 (String.length (stem ++ ".csv") - 4) (stem ++ ".csv")
             = stem).
  { intros stem. rewrite string_length_app. simpl String.length.
    replace (String.length stem + 4 - 4) with (String.length stem) by lia.
    apply substring_app_l. }
  split; [|split].
  - intros name. unfold endswith. simpl String.length. split.
    + intros H. apply andb_true_iff in H as [Hlen Heq].
      apply Nat.leb_le in Hlen. apply String.eqb_eq in Heq.
      exists (substring 0 (String.length name - 4) name).
      pose proof (substring_split name (String.length name - 4)) as Hs.
      replace (String.length name - (String.length name - 4)) with 4 in Hs
        by lia.
      rewrite Heq in Hs. apply Hs. lia.
    + intros [stem ->]. rewrite string_length_app. simpl String.length.
      apply andb_true_iff. split; [apply Nat.leb_le; lia|].
      apply String.eqb_eq.
      replace (String.length stem + 4 - 4) with (String.length stem) by lia.
      apply (substring_app_r stem ".csv").
  - intros stem Hdots. unfold splitext_root. rewrite Hroot.
    destruct (forallb _ _) eqn:Hall; [|reflexivity].
    now apply only_dots_forallb in Hall.
  - intros stem Hdots. unfold splitext_root. rewrite Hroot.
    apply only_dots_forallb in Hdots. now rewrite Hdots.
Qed.

Lemma upper_app (a b : string) : upper (a ++ b) = (upper a ++ upper b)%string.
Proof.
  induction a as [|c a' IH]; [reflexivity|].
  rewrite string_app_cons. simpl. now rewrite IH, string_app_cons.
Qed.

Lemma replace_from_no_match (old pre s : string) :
  (forall a b, pre = (a ++ b)%string -> b <> EmptyString ->
               String.prefix old (b ++ s) = false) ->
  replace_from old EmptyString 0 (pre ++ s)
  = (pre ++ replace_from old EmptyString 0 s)%string.
Proof.
  induction pre as [|c pre' IH]; intros H; [reflexivity|].
  rewrite !string_app_cons. cbn [replace_from].
  rewrite <- string_app_cons.
  rewrite (H EmptyString (String c pre')) by (reflexivity || discriminate).
  f_equal. apply IH.
  intros a b -> Hb. now apply (H (String c a) b).
Qed.

(** X15.  The signal type is made by going through the name from left to
    right: the text before the first [calculate_] is kept, that occurrence
    is taken out wherever it stands (not only at the start of the name),
    and the rest of the name is treated the same way; the result is put in
    upper case.  A name that holds no [calculate_] is put in upper case as
    it is. *)
Theorem signal_type_takes_keyword_out :
  (forall name,
     (forall a b, name = (a ++ b)%string ->
                  String.prefix "calculate_" b = false) ->
     signal_type_of name = upper name) /\
  (forall pre rest,
     (forall a b, pre = (a ++ b)%string -> b <> EmptyString ->
                  String.prefix "calculate_" (b ++ "calculate_" ++ rest)
                  = false) ->
     signal_type_of (pre ++ "calculate_" ++ rest)
     = (upper pre ++ signal_type_of rest)%string).
Proof.
  split.
  - intros name H. unfold signal_type_of, replace.
    rewrite <- (string_app_empty_r name) at 1.
    rewrite replace_from_no_match; [now rewrite string_app_empty_r|].
    intros a b -> _. rewrite string_app_empty_r. now apply (H a b).
  - intros pre rest H. unfold signal_type_of, replace.
    rewrite replace_from_no_match by exact H.
    rewrite upper_app. f_equal. f_equal. simpl. now destruct rest.
Qed.

Lemma upper_ascii_not_lower (c : ascii) : is_lower (upper_ascii c) = false.
Proof.
  unfold is_lower, upper_ascii.
  destruct ((97 <=? nat_of_ascii c) && (nat_of_ascii c <=? 122)) eqn:Hc.
  - apply andb_true_iff in Hc as [H1 H2].
    apply Nat.leb_le in H1, H2.
    rewrite nat_ascii_embedding by lia.
    apply andb_false_iff. left. apply Nat.leb_gt. lia.
  - exact Hc.
Qed.

Lemma isascii_upper (s : string) :
  isascii s = true -> isascii (upper s) = true.
Proof.
  unfold isascii. induction s as [|c s IH]; [reflexivity|].
  cbn [list_ascii_of_string upper forallb]. intros H.
  apply andb_true_iff in H as [Hc Hs]. apply andb_true_iff.
  split; [|now apply IH]. apply Nat.ltb_lt in Hc. apply Nat.ltb_lt.
  unfold upper_ascii.
  destruct ((97 <=? nat_of_ascii c) && (nat_of_ascii c <=? 122));
    [|exact Hc].
  rewrite nat_ascii_embedding by lia. lia.
Qed.

Lemma isascii_replace_from (old : string) (skip : nat) (s : string) :
  isascii s = true ->
  isascii (replace_from old EmptyString skip s) = true.
Proof.
  unfold isascii. revert skip. induction s as [|c s IH]; intros skip H;
    [reflexivity|].
  cbn [list_ascii_of_string forallb] in H.
  apply andb_true_iff in H as [Hc Hs]. cbn [replace_from].
  destruct skip as [|k]; [|now apply IH].
  destruct (String.prefix old (String c s)).
  - change (forallb (fun c0 => nat_of_ascii c0 <? 128)
              (list_ascii_of_string
                 (replace_from old EmptyString (String.length old - 1) s))
            = true).
    now apply IH.
  - cbn [list_ascii_of_string forallb]. apply andb_true_iff.
    split; [exact Hc | now apply IH].
Qed.

(** X16.  For a name of ASCII characters the signal type is ASCII text
    too, holds no lower-case letter, and is never longer than the name of
    the indicator. *)
Theorem signal_type_is_upper_case name :
  isascii name = true ->
  isascii (signal_type_of name) = true /\
  (forall c, In c (list_ascii_of_string (signal_type_of name)) ->
             is_lower c = false) /\
  String.length (signal_type_of name) <= String.length name.
Proof.
  intros Hascii. unfold signal_type_of, replace. split; [|split].
  - now apply isascii_upper, isascii_replace_from.
  - generalize (replace_from "calculate_" EmptyString 0 name).
    intros s. induction s as [|x s IH]; intros c Hc; simpl in Hc; [done|].
    destruct Hc as [<-|Hc]; [apply upper_ascii_not_lower | now apply IH].
  - assert (Hup : forall s, String.length (upper s) = String.length s).
    { intros s. induction s as [|x s IH]; simpl; [reflexivity|].
      now rewrite IH. }
    rewrite Hup. clear Hascii. generalize 0 as skip.
    induction name as [|x name' IH]; intros skip; cbn [replace_from];
      [simpl; lia|].
    destruct skip as [|k]; [|specialize (IH k); simpl; lia].
    destruct (String.prefix _ _).
    + change (String.length
                (replace_from "calculate_" EmptyString
                   (String.length "calculate_" - 1) name')
              <= String.length (String x name')).
      specialize (IH (String.length "calculate_" - 1)). simpl in *. lia.
    + specialize (IH 0). simpl. lia.
Qed.

(** ** The further properties on the sample data *)

(** X1 on the five sample bars: bar 2 is flagged, bar 3 is not. *)
Lemma no_two_flags_in_a_row_witness :
  cross_up Sample.closes (shift1 Sample.closes) !! 2 = Some true /\
  cross_up Sample.closes (shift1 Sample.closes) !! 3 <> Some true /\
  rsi_buy Sample.closes 30 !! 1 = Some true /\
  rsi_buy Sample.closes 30 !! 2 <> Some true.
Proof.
  destruct (no_two_flags_in_a_row Sample.talib_MACD Sample.talib_RSI
              Sample.MACD_CONFIG Sample.RSI_CONFIG [Sample.bars] 0
              Sample.bars (Floats Sample.closes))
    as [Hmacd Hrsi]; [reflexivity | reflexivity |].
  split; [reflexivity|]. split; [|split; [reflexivity|]].
  - apply (Hmacd Sample.closes (shift1 Sample.closes)
             (zip_with Sample.float_sub Sample.closes (shift1 Sample.closes)));
      reflexivity.
  - apply (Hrsi "1D" Sample.closes); reflexivity.
Defined.

(** X2 on bars whose timestamps fall: the flagged bars are bars 2 and 4,
    the date returned is the timestamp of bar 2. *)
Lemma last_signal_is_latest_flagged_witness :
  exists m,
    (calculate_macd Sample.talib_MACD Sample.MACD_CONFIG 0
       [Sample2.unsorted_bars]).2 = Ok (0, Some (STime m)) /\
    latest_flagged (cross_up Sample.closes (shift1 Sample.closes))
      Sample2.falling_stamps m.
Proof.
  destruct (last_signal_is_latest_flagged Sample.talib_MACD Sample.talib_RSI
              Sample.MACD_CONFIG Sample.RSI_CONFIG [Sample2.unsorted_bars] 0
              Sample2.unsorted_bars (Floats Sample.closes)
              Sample2.falling_stamps)
    as [Hmacd _]; [reflexivity | reflexivity | reflexivity |].
  apply (Hmacd Sample.closes (shift1 Sample.closes)
           (zip_with Sample.float_sub Sample.closes (shift1 Sample.closes)));
    [reflexivity | exists 2; reflexivity].
Defined.

(** X3 on the sample table without timestamps. *)
Lemma KeyError_leaves_table_changed_witness :
  calculate_macd Sample.talib_MACD Sample.MACD_CONFIG 0
    [Sample.csv_no_datetime]
  = (<[0 := macd_columns Sample.csv_no_datetime Sample.closes
               (shift1 Sample.closes)
               (zip_with Sample.float_sub Sample.closes
                  (shift1 Sample.closes))]> [Sample.csv_no_datetime],
     Raise (KeyError "Datetime")).
Proof.
  destruct (KeyError_leaves_table_changed Sample.talib_MACD Sample.talib_RSI
              Sample.MACD_CONFIG Sample.RSI_CONFIG [Sample.csv_no_datetime] 0
              Sample.csv_no_datetime (Floats Sample.closes))
    as [Hmacd _]; [reflexivity | reflexivity | reflexivity |].
  apply Hmacd; [reflexivity | exists 2; reflexivity].
Defined.

(** X4 on the five sample bars. *)
Lemma second_call_changes_nothing_witness :
  calculate_macd Sample.talib_MACD Sample.MACD_CONFIG 0
    (calculate_macd Sample.talib_MACD Sample.MACD_CONFIG 0 [Sample.bars]).1
  = calculate_macd Sample.talib_MACD Sample.MACD_CONFIG 0 [Sample.bars].
Proof.
  destruct (second_call_changes_nothing Sample.talib_MACD Sample.talib_RSI
              Sample.MACD_CONFIG Sample.RSI_CONFIG [Sample.bars] 0
              Sample.bars) as [Hmacd _]; [reflexivity|].
  exact Hmacd.
Defined.

(** X5 on the five sample bars. *)
Lemma indicators_do_not_disturb_each_other_witness :
  (calculate_rsi Sample.talib_RSI Sample.RSI_CONFIG 0 "1D"
     (calculate_macd Sample.talib_MACD Sample.MACD_CONFIG 0
        [Sample.bars]).1).2
  = (calculate_rsi Sample.talib_RSI Sample.RSI_CONFIG 0 "1D"
       [Sample.bars]).2.
Proof.
  destruct (indicators_do_not_disturb_each_other Sample.talib_MACD
              Sample.talib_RSI Sample.MACD_CONFIG Sample.RSI_CONFIG
              [Sample.bars] 0 Sample.bars "1D") as (Hrsi & _ & _);
    [reflexivity|].
  exact Hrsi.
Defined.

(** X6 on the sample file, from an empty store and from a store that holds
    a table. *)
Lemma screen_file_of_main_indicators_witness :
  (screen_file Sample.to_datetime Sample.indicators []
     ("AAA.csv", Sample.csv_good) [Sample.bars]).2
  = (screen_file Sample.to_datetime Sample.indicators []
       ("AAA.csv", Sample.csv_good) []).2.
Proof.
  destruct (screen_file_of_main_indicators Sample.to_datetime
              Sample.talib_MACD Sample.talib_RSI Sample.MACD_CONFIG
              Sample.RSI_CONFIG [] "AAA.csv" Sample.csv_good [])
    as (_ & Hstore & _); [reflexivity|].
  exact (Hstore [Sample.bars]).
Defined.


(** X10 on a run over two entries, one of them a [.csv] file. *)
Lemma at_most_one_batch_per_call_witness :
  length (Sample.batches_good "AAA")
  <= length (csv_files [("AAA.csv", Sample.csv_good); ("notes.txt", ∅)])
     * length Sample.indicators.
Proof.
  apply (at_most_one_batch_per_call Sample.to_datetime
           [("AAA.csv", Sample.csv_good); ("notes.txt", ∅)]
           Sample.indicators []
           (collect_signals Sample.to_datetime
              [("AAA.csv", Sample.csv_good); ("notes.txt", ∅)]
              Sample.indicators []).1).
  vm_compute. reflexivity.
Defined.

(** X11 on a table with two flagged bars out of three. *)
Lemma one_record_per_flagged_bar_witness :
  exists records,
    signals_of Sample2.flagged_table "AAA" Sample2.indicator_nothing
    = Ok records /\
    length records = 2.
Proof.
  destruct (one_record_per_flagged_bar Sample2.flagged_table "AAA"
              Sample2.indicator_nothing [true; false; true]
              (Datetimes (Sample.times [100; 200; 300]%Z)))
    as (records & Hsig & _ & Hlen); [reflexivity | reflexivity |].
  exists records. split; [exact Hsig|]. now apply Hlen.
Defined.

(** X12 on a directory whose only [.csv] file has no flagged bar: the file
    is written, with the header alone. *)
Lemma printed_line_of_main_indicators_witness :
  (screen_by_indicators_io Sample.to_datetime Sample2.stock_dir_rising
     Sample.indicators "signals.csv" [] ∅).1.2
  = ["Signals appended to signals.csv"] /\
  exists batches,
    length batches = 2 * length (csv_files Sample2.stock_dir_rising) /\
    (screen_by_indicators_io Sample.to_datetime Sample2.stock_dir_rising
       Sample.indicators "signals.csv" [] ∅).1.1.2 !! "signals.csv"
    = Some (default [] ((∅ : gmap string (list line)) !! "signals.csv")
              ++ (if path_exists ∅ "signals.csv" then []
                  else [Header ["Datetime"; "symbol"; "signal type"]])
              ++ (Row <$> concat batches)).
Proof.
  destruct (printed_line_of_main_indicators Sample.to_datetime
              Sample.talib_MACD Sample.talib_RSI Sample.MACD_CONFIG
              Sample.RSI_CONFIG Sample2.stock_dir_rising "signals.csv" [] ∅
              (screen_by_indicators_io Sample.to_datetime
                 Sample2.stock_dir_rising Sample.indicators "signals.csv"
                 [] ∅).1.1.1
              (screen_by_indicators_io Sample.to_datetime
                 Sample2.stock_dir_rising Sample.indicators "signals.csv"
                 [] ∅).1.1.2
              (screen_by_indicators_io Sample.to_datetime
                 Sample2.stock_dir_rising Sample.indicators "signals.csv"
                 [] ∅).1.2)
    as [_ Hcsv]; [vm_compute; reflexivity|].
  apply Hcsv. discriminate.
Defined.


(** X14 on the names [AAPL.csv] and [.csv]. *)
Lemma stock_symbol_of_csv_name_witness :
  endswith "AAPL.csv" ".csv" = true /\
  splitext_root "AAPL.csv" = "AAPL" /\
  splitext_root ".csv" = ".csv".
Proof.
  destruct stock_symbol_of_csv_name as (Hends & Hstem & Hdots).
  split; [|split].
  - apply Hends. now exists "AAPL".
  - apply (Hstem "AAPL"). intros H. specialize (H "A"%char).
    simpl in H. discriminate H. auto.
  - apply (Hdots EmptyString). intros c [].
Defined.

(** X15 on a name with the word in the middle. *)
Lemma signal_type_takes_keyword_out_witness :
  signal_type_of "my_calculate_x" = "MY_X" /\
  signal_type_of "macd" = "MACD".
Proof.
  destruct signal_type_takes_keyword_out as [Hnone Hfirst].
  split.
  - apply (Hfirst "my_" "x").
    intros a b Hab Hb.
    destruct a as [|c1 [|c2 [|c3 [|c4 a]]]]; vm_compute in Hab;
      simplify_eq; reflexivity.
  - apply (Hnone "macd").
    intros a b Hab.
    destruct a as [|c1 [|c2 [|c3 [|c4 [|c5 a]]]]]; vm_compute in Hab;
      simplify_eq; reflexivity.
Defined.

(** X16 on the name [calculate_macd]. *)
Lemma signal_type_is_upper_case_witness :
  isascii (signal_type_of "calculate_macd") = true /\
  is_lower "M" = false /\
  String.length (signal_type_of "calculate_macd")
  <= String.length "calculate_macd".
Proof.
  destruct (signal_type_is_upper_case "calculate_macd" eq_refl)
    as (Hascii & Hlow & Hlen).
  split; [exact Hascii|]. split; [|exact Hlen].
  apply Hlow. left. reflexivity.
Defined.

(** X17 on an indicator that returns the table as it got it, after
    [calculate_macd] has flagged the bars 2 and 4. *)
Lemma batch_is_read_from_returned_table_witness :
  apply_indicator "AAA" (0, []) Sample2.indicator_nothing
    [Sample2.flagged_table]
  = ([Sample2.flagged_table],
     Ok (0,
         [] ++ [records_at (Datetimes (Sample.times [100; 200; 300]%Z))
                  [true; false; true] "AAA"
                  (signal_type_of (__name__ Sample2.indicator_nothing))])).
Proof.
  destruct (batch_is_read_from_returned_table "AAA" 0 []
              Sample2.indicator_nothing [Sample2.flagged_table]
              [Sample2.flagged_table] (RFrame 0) Sample2.flagged_table)
    as [Hflags _]; [reflexivity | reflexivity |].
  apply Hflags; reflexivity.
Defined.
